(** * A Telegram front end for a conversational backend: access policy,
      per-user continuity cache, relay and translation plugin.

    Shallow embedding of [telegram_bot.py] and [bot/plugins/deepl.py].
    Python values are modelled as follows: [int] as [Z], [str] as [string],
    [None]-or-string as [option string], a [dict] with string keys as
    [gmap string string], the insertion-ordered store behind the expiring
    dictionary as an association list (order decides the eviction victim),
    and a raised exception as the left injection of a sum.

    The handlers are stateful: they share the module-level cache and the
    backend client object, read the wall clock at every cache access, draw
    random tokens and talk to the transport and to the backend. They are
    written in a state-and-exception monad over a [World]; what the outside
    decides (clock readings, generated tokens, backend outcomes) is given by
    an [Env] of oracles indexed by how many readings, draws and calls have
    been made, and outbound effects are recorded in a trace. Time is counted
    in whole seconds. Calls to [logging] have no effect on any of this and
    are left out.

    The plain monad covers runs in which only instances of [Exception] are
    raised. The [except Exception] clause of the relay does not catch the
    exceptions that derive from [BaseException] alone; module
    [Interruptible] runs the relay and the message handler when the awaited
    backend call can end with one of those. *)

From Stdlib Require Import ZArith List Lia Bool Ascii String.
From Stdlib Require Import DecimalString DecimalPos DecimalZ.
From stdpp Require Import base decidable option list strings gmap pretty.
Import ListNotations.

Local Open Scope string_scope.
Local Open Scope Z_scope.

(** ** Python string primitives used by the sources *)

Module Py.

(** [str(n)] for an [int]: decimal digits, with a leading minus sign for
    negative numbers. *)
Definition str (n : Z) : string := NilZero.string_of_int (Z.to_int n).

(** [s.split(sep)] for a one-character separator: the fields between
    occurrences of [sep]; never the empty list. *)
Fixpoint split (sep : ascii) (s : string) : list string :=
  match s with
  | EmptyString => [EmptyString]
  | String c rest =>
      if Ascii.eqb c sep then EmptyString :: split sep rest
      else match split sep rest with
           | [] => [String c EmptyString]
           | field :: fields => String c field :: fields
           end
  end.

(** [s.lower()] on ASCII text. *)
Definition lower_char (c : ascii) : ascii :=
  let n := nat_of_ascii c in
  if ((65 <=? n) && (n <=? 90))%nat then ascii_of_nat (n + 32) else c.

Fixpoint lower (s : string) : string :=
  match s with
  | EmptyString => EmptyString
  | String c rest => String (lower_char c) (lower rest)
  end.

(** Exceptions, all of them instances of Python's [Exception] class
    (the class an [except Exception] clause matches). *)
Inductive Exception : Type :=
| KeyError (key : string)
| ValueError (msg : string)
| OtherException (cls msg : string).

(** The exceptions that derive from [BaseException] without deriving from
    [Exception] ([asyncio.CancelledError] since Python 3.8): an
    [except Exception] clause lets them through. *)
Inductive SystemExiting : Type :=
| CancelledError
| KeyboardInterrupt
| SystemExit (code : Z).

(** Whatever a statement can raise. *)
Inductive Raised : Type :=
| Instance (e : Exception)
| Outside (b : SystemExiting).

(** [sep.join(fields)]. *)
Fixpoint join (sep : string) (fields : list string) : string :=
  match fields with
  | [] => EmptyString
  | field :: rest =>
      match rest with
      | [] => field
      | _ :: _ => field +:+ sep +:+ join sep rest
      end
  end.

(** [sep in s] for a one-character [sep]. *)
Fixpoint has_char (sep : ascii) (s : string) : bool :=
  match s with
  | EmptyString => false
  | String c rest => Ascii.eqb c sep || has_char sep rest
  end.

End Py.

(** ** Access policy *)

(** [telegram.constants.ChatType]. *)
Inductive ChatType : Type := SENDER | PRIVATE | GROUP | SUPERGROUP | CHANNEL.

#[global] Instance ChatType_eq_dec : EqDecision ChatType.
Proof. solve_decision. Defined.

(** An update that carries a message with a sender, which is what the
    handlers take for granted (they read [update.message.chat] and
    [update.message.from_user] right away; an update without message makes
    them raise [AttributeError] before anything else happens, and is not
    in this type). The fields of [telegram.Update] that the handlers read:
    [update.message.from_user.id], [update.message.chat.id] (which is also
    [update.effective_chat.id] for a message update),
    [update.message.chat.type], [update.message.text] and
    [update.message.message_id]. *)
Record Update : Type := mkUpdate {
  from_user_id : Z;
  chat_id : Z;
  chat_type : ChatType;
  text : string;
  message_id : Z
}.

(** The two entries of the [config] dictionary that [is_allowed] reads. *)
Record Config : Type := mkConfig {
  allowed_user_ids : string;
  allowed_chat_ids : string
}.

(** [ChatGPT3TelegramBot.is_allowed]. *)
Definition is_allowed (config : Config) (update : Update) : bool :=
  let chat_type := chat_type update in
  if bool_decide (allowed_user_ids config = "*")
     && bool_decide (chat_type = PRIVATE) then true
  else if bool_decide (allowed_chat_ids config = "*")
          && bool_decide (chat_type = GROUP) then true
  else
    let is_allow_user :=
      bool_decide (Py.str (from_user_id update)
                     ∈ Py.split "," (allowed_user_ids config))
      && bool_decide (chat_type = PRIVATE) in
    let is_allow_group :=
      bool_decide (Py.str (chat_id update)
                     ∈ Py.split "," (allowed_chat_ids config))
      && bool_decide (chat_type ∈ [GROUP; SUPERGROUP]) in
    is_allow_group || is_allow_user.

(** *** The policy as the specification words it *)

Module AccessPolicy.

(** An allow-list is a wildcard or an explicit set of identifiers. *)
Inductive AllowList : Type :=
| Wildcard
| Explicit (ids : list string).

Definition is_wildcard (a : AllowList) : bool :=
  match a with Wildcard => true | Explicit _ => false end.

Definition in_explicit (id : string) (a : AllowList) : bool :=
  match a with
  | Wildcard => false
  | Explicit ids => bool_decide (id ∈ ids)
  end.

(** How a configured string is read: the one-character string of a star
    is the wildcard, anything else a comma-separated explicit list. *)
Definition of_config (s : string) : AllowList :=
  if bool_decide (s = "*") then Wildcard else Explicit (Py.split "," s).

Inductive Decision : Type := Allow | Deny.

(** The five rules, in order. *)
Definition decide_rules (users chats : AllowList)
    (requester_id chat_id : string) (kind : ChatType) : Decision :=
  if is_wildcard users && bool_decide (kind = PRIVATE) then Allow
  else if is_wildcard chats && bool_decide (kind = GROUP) then Allow
  else if in_explicit requester_id users && bool_decide (kind = PRIVATE)
  then Allow
  else if in_explicit chat_id chats
          && (bool_decide (kind = GROUP) || bool_decide (kind = SUPERGROUP))
  then Allow
  else Deny.

Definition to_bool (d : Decision) : bool :=
  match d with Allow => true | Deny => false end.

End AccessPolicy.

(** ** The expiring dictionary *)

Module ExpiringDict.

(** What the cache stores for a user: [(conversation_id, prev_conv_id)]. *)
Definition Value : Type := option string * string.

(** Modelled from the spec: the expiring dictionary type is a third-party
    collaborator whose code is not part of the sources. It is a bounded
    mapping created with a capacity and a time-to-live; every entry
    remembers when it was last written. The store keeps insertion order,
    oldest first. *)
Record t : Type := mk {
  max_len : nat;
  max_age_seconds : Z;
  items : list (Z * (Value * Z))
}.

Definition with_items (d : t) (l : list (Z * (Value * Z))) : t :=
  {| max_len := max_len d; max_age_seconds := max_age_seconds d; items := l |}.

(** Raw lookup in the ordered store: the value and its write time. *)
Fixpoint od_get (k : Z) (l : list (Z * (Value * Z))) : option (Value * Z) :=
  match l with
  | [] => None
  | (k', e) :: rest => if Z.eqb k k' then Some e else od_get k rest
  end.

(** Raw removal of a key from the ordered store. *)
Fixpoint od_del (k : Z) (l : list (Z * (Value * Z))) : list (Z * (Value * Z)) :=
  match l with
  | [] => []
  | (k', e) :: rest =>
      if Z.eqb k k' then od_del k rest else (k', e) :: od_del k rest
  end.

(** Modelled from the spec: an entry is considered absent once its age,
    measured from its last write, exceeds the time-to-live. *)
Definition expired (d : t) (now written : Z) : bool :=
  max_age_seconds d <? now - written.

(** The entry a reader at time [now] would observe, without touching the
    store. *)
Definition live (now : Z) (k : Z) (d : t) : option Value :=
  match od_get k (items d) with
  | Some (v, written) => if expired d now written then None else Some v
  | None => None
  end.

(** Number of stored entries that are still live at [now]. *)
Definition live_count (now : Z) (d : t) : nat :=
  length (List.filter (fun kv => negb (expired d now (snd (snd kv)))) (items d)).

(** Modelled from the spec: [key in d]. Expiry is checked lazily on
    access: an entry found expired is dropped at that moment. *)
Definition contains (now : Z) (k : Z) (d : t) : bool * t :=
  match od_get k (items d) with
  | None => (false, d)
  | Some (_, written) =>
      if expired d now written then (false, with_items d (od_del k (items d)))
      else (true, d)
  end.

(** Modelled from the spec: [d[key]]; [None] stands for the [KeyError] of
    an absent or expired entry. *)
Definition getitem (now : Z) (k : Z) (d : t) : option Value * t :=
  match od_get k (items d) with
  | None => (None, d)
  | Some (v, written) =>
      if expired d now written then (None, with_items d (od_del k (items d)))
      else (Some v, d)
  end.

(** Modelled from the spec: the room made for a write. The previous
    entry of the written key goes; when the new key would exceed the
    capacity the least recently written entry is evicted. *)
Definition room (k : Z) (d : t) : list (Z * (Value * Z)) :=
  let kept := od_del k (items d) in
  if (max_len d <=? length kept)%nat then tl kept else kept.

(** Modelled from the spec: [d[key] = value] unconditionally overwrites or
    inserts the entry and restarts its age. *)
Definition setitem (now : Z) (k : Z) (v : Value) (d : t) : t :=
  with_items d (room k d ++ [(k, (v, now))]).

(** The store never holds a key twice and never more entries than its
    (positive) capacity. *)
Definition well_formed (d : t) : Prop :=
  List.NoDup (map fst (items d))
  /\ (length (items d) <= max_len d)%nat
  /\ (0 < max_len d)%nat.

End ExpiringDict.

Definition MAX_SESSION_NUM : nat := 1000.
Definition MAX_AGE_SECONDS : Z := 1800.

(** ** The world the handlers run in *)

(** The two attributes of the backend client object that the relay writes
    before each call. *)
Record Chatbot : Type := mkChatbot {
  conversation_id : option string;
  parent_id : string
}.

(** A response of the backend: a dictionary with string keys. *)
Abbreviation Response := (gmap string string).

(** What the environment decides: the reading of the clock at its n-th
    reading, the n-th token drawn from the UUID generator, the outcome of
    the n-th backend call (given the client's attributes and the message),
    and what the backend's own reset does to the client object. *)
Record Env : Type := mkEnv {
  clock : nat -> Z;
  uuid4 : nat -> string;
  get_chat_response_result :
    nat -> Chatbot -> string -> Chatbot * (Py.Exception + Response);
  reset_chat_result : Chatbot -> Chatbot
}.

(** Outbound effects, newest first in the trace. The typing task runs
    concurrently with the backend call; only its creation and its
    cancellation are recorded. *)
Inductive Event : Type :=
| SendMessage (chat : Z) (reply_to_message_id : option Z) (body : string)
| TypingStarted (chat : Z) (every_seconds : Z)
| TypingCancelled
| BackendRequest (message : string) (conv : option string) (parent : string)
| BackendReset.

Record World : Type := mkWorld {
  prev_conv_id_cache : ExpiringDict.t;
  gpt3_bot : Chatbot;
  clock_reads : nat;
  uuids_drawn : nat;
  backend_calls : nat;
  trace : list Event
}.

Definition initial_world (bot : Chatbot) : World :=
  {| prev_conv_id_cache :=
       ExpiringDict.mk MAX_SESSION_NUM MAX_AGE_SECONDS [];
     gpt3_bot := bot;
     clock_reads := 0;
     uuids_drawn := 0;
     backend_calls := 0;
     trace := [] |}.

Definition set_cache (d : ExpiringDict.t) (w : World) : World :=
  {| prev_conv_id_cache := d; gpt3_bot := gpt3_bot w;
     clock_reads := clock_reads w; uuids_drawn := uuids_drawn w;
     backend_calls := backend_calls w; trace := trace w |}.

Definition set_bot (b : Chatbot) (w : World) : World :=
  {| prev_conv_id_cache := prev_conv_id_cache w; gpt3_bot := b;
     clock_reads := clock_reads w; uuids_drawn := uuids_drawn w;
     backend_calls := backend_calls w; trace := trace w |}.

Definition read_clock (w : World) : World :=
  {| prev_conv_id_cache := prev_conv_id_cache w; gpt3_bot := gpt3_bot w;
     clock_reads := S (clock_reads w); uuids_drawn := uuids_drawn w;
     backend_calls := backend_calls w; trace := trace w |}.

Definition draw_uuid (w : World) : World :=
  {| prev_conv_id_cache := prev_conv_id_cache w; gpt3_bot := gpt3_bot w;
     clock_reads := clock_reads w; uuids_drawn := S (uuids_drawn w);
     backend_calls := backend_calls w; trace := trace w |}.

Definition count_call (w : World) : World :=
  {| prev_conv_id_cache := prev_conv_id_cache w; gpt3_bot := gpt3_bot w;
     clock_reads := clock_reads w; uuids_drawn := uuids_drawn w;
     backend_calls := S (backend_calls w); trace := trace w |}.

Definition emit (e : Event) (w : World) : World :=
  {| prev_conv_id_cache := prev_conv_id_cache w; gpt3_bot := gpt3_bot w;
     clock_reads := clock_reads w; uuids_drawn := uuids_drawn w;
     backend_calls := backend_calls w; trace := e :: trace w |}.

(** *** State and exception monad *)

Definition M (A : Type) : Type := World -> (Py.Exception + A) * World.

#[global] Instance M_ret : MRet M := fun A x w => (inr x, w).

#[global] Instance M_bind : MBind M := fun A B f m w =>
  match m w with
  | (inl e, w') => (inl e, w')
  | (inr x, w') => f x w'
  end.

Definition raise {A : Type} (e : Py.Exception) : M A := fun w => (inl e, w).

(** [try: body except Exception as e: handler e], for a body that raises
    instances of [Exception] only. State changes made by the body before it
    raised are kept. Bodies that can also end with an exception from
    outside [Exception] are run in [Interruptible.Task] below, where the
    clause lets those through. *)
Definition try_except {A : Type} (body : M A) (handler : Py.Exception -> M A) : M A :=
  fun w =>
    match body w with
    | (inl e, w') => handler e w'
    | (inr x, w') => (inr x, w')
    end.

(** [d[key]] on a plain dictionary. *)
Definition dict_getitem (d : Response) (key : string) : M string :=
  match d !! key with
  | Some v => mret v
  | None => raise (Py.KeyError key)
  end.

(** ** The handlers *)

Section Handlers.

Variable env : Env.

(** The instant at which the next cache access reads the clock. *)
Definition now (w : World) : Z := clock env (clock_reads w).

(** [user in prev_conv_id_cache]; the access reads the clock once. *)
Definition cache_contains (user : Z) : M bool := fun w =>
  let '(present, d) :=
    ExpiringDict.contains (now w) user (prev_conv_id_cache w) in
  (inr present, set_cache d (read_clock w)).

(** [prev_conv_id_cache[user]]; the access reads the clock once. *)
Definition cache_getitem (user : Z) : M ExpiringDict.Value := fun w =>
  let '(found, d) :=
    ExpiringDict.getitem (now w) user (prev_conv_id_cache w) in
  match found with
  | Some v => (inr v, set_cache d (read_clock w))
  | None => (inl (Py.KeyError (Py.str user)), set_cache d (read_clock w))
  end.

(** [prev_conv_id_cache[user] = value]; the write is stamped with one
    reading of the clock. *)
Definition cache_setitem (user : Z) (v : ExpiringDict.Value) : M unit := fun w =>
  (inr tt,
   set_cache (ExpiringDict.setitem (now w) user v (prev_conv_id_cache w))
             (read_clock w)).

(** [generate_uuid]: the next token of the generator. *)
Definition generate_uuid : M string := fun w =>
  (inr (uuid4 env (uuids_drawn w)), draw_uuid w).

(** [get_prev_conv_id]. *)
Definition get_prev_conv_id (user : Z) : M (option string * string) :=
  present ← cache_contains user;
  (if negb present
   then token ← generate_uuid; cache_setitem user (None, token)
   else mret tt);;
  '(conversation_id, prev_conv_id) ← cache_getitem user;
  mret (conversation_id, prev_conv_id).

(** [set_prev_conv_id]. *)
Definition set_prev_conv_id (user : Z) (conversation_id : option string)
    (prev_conv_id : string) : M unit :=
  cache_setitem user (conversation_id, prev_conv_id).

(** [self.gpt3_bot.parent_id = ...] and [self.gpt3_bot.conversation_id = ...]. *)
Definition set_parent_id (p : string) : M unit := fun w =>
  (inr tt, set_bot (mkChatbot (conversation_id (gpt3_bot w)) p) w).

Definition set_conversation_id (c : option string) : M unit := fun w =>
  (inr tt, set_bot (mkChatbot c (parent_id (gpt3_bot w))) w).

(** [await self.gpt3_bot.get_chat_response(message)]: the request is
    recorded with the continuity tokens the client carries, and the
    environment decides the outcome. *)
Definition get_chat_response (message : string) : M Response := fun w =>
  let bot := gpt3_bot w in
  let '(bot', outcome) :=
    get_chat_response_result env (backend_calls w) bot message in
  (outcome,
   set_bot bot'
     (count_call
        (emit (BackendRequest message (conversation_id bot) (parent_id bot)) w))).

(** [self.gpt3_bot.reset_chat()]. *)
Definition reset_chat : M unit := fun w =>
  (inr tt, set_bot (reset_chat_result env (gpt3_bot w)) (emit BackendReset w)).

(** [await context.bot.send_message(...)]. *)
Definition send_message (chat : Z) (reply_to : option Z) (body : string) : M unit :=
  fun w => (inr tt, emit (SendMessage chat reply_to body) w).

Definition fallback_response : Response :=
  {[ "message" := "I'm having some trouble talking to you, please try again later." ]}.

(** [ChatGPT3TelegramBot.get_chatgpt_response]. *)
Definition get_chatgpt_response (message : string) (from_user : Z) : M Response :=
  try_except
    ('(conversation_id, prev_conv_id) ← get_prev_conv_id from_user;
     set_parent_id prev_conv_id;;
     set_conversation_id conversation_id;;
     response ← get_chat_response message;
     new_conversation_id ← dict_getitem response "conversation_id";
     new_parent_id ← dict_getitem response "parent_id";
     set_prev_conv_id from_user (Some new_conversation_id) new_parent_id;;
     mret response)
    (fun e => mret fallback_response).

Definition disallowed_message : string :=
  "Sorry, you are not allowed to use this bot. You can check out the source code at "
  +:+ "https://github.com/n3d1117/chatgpt-telegram-bot".

(** [ChatGPT3TelegramBot.send_disallowed_message]. *)
Definition send_disallowed_message (update : Update) : M unit :=
  send_message (chat_id update) None disallowed_message.

(** [ChatGPT3TelegramBot.reset]. *)
Definition reset (config : Config) (update : Update) : M unit :=
  if negb (is_allowed config update) then send_disallowed_message update
  else
    reset_chat;;
    send_message (chat_id update) None "Done!".

(** [ChatGPT3TelegramBot.prompt]. *)
Definition prompt (config : Config) (update : Update) : M unit :=
  if negb (is_allowed config update) then send_disallowed_message update
  else
    (fun w => (inr tt, emit (TypingStarted (chat_id update) 4) w));;
    response ← get_chatgpt_response (text update) (from_user_id update);
    (fun w => (inr tt, emit TypingCancelled w));;
    body ← dict_getitem response "message";
    send_message (chat_id update) (Some (message_id update)) body.

(** *** Observations on the cache *)

(** The stored pair of a user together with its write time, expired or
    not. *)
Definition entry (user : Z) (w : World) : option (ExpiringDict.Value * Z) :=
  ExpiringDict.od_get user (ExpiringDict.items (prev_conv_id_cache w)).

(** The pair a reader would observe for a user at instant [t]. *)
Definition live_at (t : Z) (user : Z) (w : World) : option ExpiringDict.Value :=
  ExpiringDict.live t user (prev_conv_id_cache w).

(** The time-to-live of the cache. *)
Definition ttl (w : World) : Z :=
  ExpiringDict.max_age_seconds (prev_conv_id_cache w).

(** The clock reading [k] readings after the next one. *)
Definition clock_after (k : nat) (w : World) : Z :=
  clock env (k + clock_reads w).

(** The cache after a user without live pair has been given a token:
    the dead pair, if any, is dropped by the membership test, and the
    new pair is stamped with the next clock reading. *)
Definition created (user : Z) (w : World) : ExpiringDict.t :=
  ExpiringDict.setitem (clock_after 1 w) user (None, uuid4 env (uuids_drawn w))
    (ExpiringDict.with_items (prev_conv_id_cache w)
       (ExpiringDict.od_del user (ExpiringDict.items (prev_conv_id_cache w)))).

(** *** Sequences of cache operations *)

Inductive CacheOp : Type :=
| GetOrCreate (user : Z)
| Put (user : Z) (conversation_id : option string) (prev_conv_id : string).

Definition exec_op (op : CacheOp) (w : World) : World :=
  match op with
  | GetOrCreate user => snd (get_prev_conv_id user w)
  | Put user c p => snd (set_prev_conv_id user c p w)
  end.

Definition run (ops : list CacheOp) (w : World) : World :=
  fold_left (fun w op => exec_op op w) ops w.

(** [ChatGPT3TelegramBot.start]. *)
Definition start (config : Config) (update : Update) : M unit :=
  if negb (is_allowed config update) then send_disallowed_message update
  else send_message (chat_id update) None "I'm a Chat-GPT3 Bot, please talk to me!".

End Handlers.

(** ** The handlers when the awaited backend call can be interrupted

    The [await] of the backend call is where the event loop throws a
    cancellation into the coroutine, and the backend's own code may exit
    the interpreter: such exceptions are not instances of [Exception]. *)

Module Interruptible.

(** A run that ends with a value or with anything that can be raised. *)
Definition Task (A : Type) : Type := World -> (Py.Raised + A) * World.

#[global] Instance Task_ret : MRet Task := fun A x w => (inr x, w).

#[global] Instance Task_bind : MBind Task := fun A B f m w =>
  match m w with
  | (inl r, w') => (inl r, w')
  | (inr x, w') => f x w'
  end.

(** A run of the plain monad inside a task: what it raises is an instance
    of [Exception]. *)
Definition lift {A : Type} (m : M A) : Task A := fun w =>
  match m w with
  | (inl e, w') => (inl (Py.Instance e), w')
  | (inr x, w') => (inr x, w')
  end.

(** [try: body except Exception as e: handler e]: instances of [Exception]
    go to the handler, anything else propagates. *)
Definition try_except_Exception {A : Type} (body : Task A)
    (handler : Py.Exception -> Task A) : Task A :=
  fun w =>
    match body w with
    | (inl (Py.Instance e), w') => handler e w'
    | (inl (Py.Outside b), w') => (inl (Py.Outside b), w')
    | (inr x, w') => (inr x, w')
    end.

Section Handlers.

(** Whether the n-th awaited backend call ends with an exception from
    outside [Exception], and which. *)
Variable interrupt : nat -> option Py.SystemExiting.

Variable env : Env.

(** [await self.gpt3_bot.get_chat_response(message)]: the call is made with
    the tokens the client carries; it is interrupted, or the environment
    decides its outcome as before. *)
Definition await_get_chat_response (message : string) : Task Response := fun w =>
  match interrupt (backend_calls w) with
  | Some b =>
      (inl (Py.Outside b),
       count_call
         (emit (BackendRequest message (conversation_id (gpt3_bot w))
                  (parent_id (gpt3_bot w))) w))
  | None => lift (get_chat_response env message) w
  end.

(** [ChatGPT3TelegramBot.get_chatgpt_response]. *)
Definition get_chatgpt_response (message : string) (from_user : Z) : Task Response :=
  try_except_Exception
    ('(conversation_id, prev_conv_id) ← lift (get_prev_conv_id env from_user);
     lift (set_parent_id prev_conv_id);;
     lift (set_conversation_id conversation_id);;
     response ← await_get_chat_response message;
     new_conversation_id ← lift (dict_getitem response "conversation_id");
     new_parent_id ← lift (dict_getitem response "parent_id");
     lift (set_prev_conv_id env from_user (Some new_conversation_id) new_parent_id);;
     mret response)
    (fun e => mret fallback_response).

(** [ChatGPT3TelegramBot.prompt]. *)
Definition prompt (config : Config) (update : Update) : Task unit :=
  if negb (is_allowed config update) then lift (send_disallowed_message update)
  else
    lift (fun w => (inr tt, emit (TypingStarted (chat_id update) 4) w));;
    response ← get_chatgpt_response (text update) (from_user_id update);
    lift (fun w => (inr tt, emit TypingCancelled w));;
    body ← lift (dict_getitem response "message");
    lift (send_message (chat_id update) (Some (message_id update)) body).

End Handlers.

End Interruptible.

(** ** The translation plugin *)

Module DeeplTranslatePlugin.

(** The object the constructor builds. *)
Record t : Type := mk {
  api_key : string;
  api_pro : bool
}.

(** Truth value of an optional string: [None] and the empty string are
    false. *)
Definition truthy (v : option string) : bool :=
  match v with
  | None => false
  | Some s => negb (bool_decide (s = ""))
  end.

(** [DeeplTranslatePlugin.__init__], reading the process environment. *)
Definition init (environ : gmap string string) : Py.Exception + t :=
  let deepl_api_key := environ !! "DEEPL_API_KEY" in
  let deepl_api_pro :=
    bool_decide (Py.lower (default "false" (environ !! "DEEPL_API_PRO")) = "true") in
  if negb (truthy deepl_api_key) || negb deepl_api_pro
  then inl (Py.ValueError
    "DEEPL_API_KEY and DEEPL_API_PLAN environment variable must be set to use DeepL Plugin")
  else inr {| api_key := default "" deepl_api_key; api_pro := deepl_api_pro |}.

Definition pro_url : string := "https://api.deepl.com/v2/translate".
Definition free_url : string := "https://api-free.deepl.com/v2/translate".

(** The HTTP request [execute] posts. *)
Record Request : Type := mkRequest {
  url : string;
  headers : list (string * string);
  data : list (string * string)
}.

(** [DeeplTranslatePlugin.execute], up to the request it submits. *)
Definition execute (self : t) (kwargs : gmap string string) : Py.Exception + Request :=
  let url := if api_pro self then pro_url else free_url in
  let headers :=
    [ ("Authorization", "DeepL-Auth-Key " +:+ api_key self);
      ("User-Agent", "chatgpt-telegram-bot/0.2.7");
      ("Content-Type", "application/x-www-form-urlencoded") ] in
  match kwargs !! "text" with
  | None => inl (Py.KeyError "text")
  | Some text =>
      match kwargs !! "to_language" with
      | None => inl (Py.KeyError "to_language")
      | Some to_language =>
          inr (mkRequest url headers
                 [("text", text); ("target_lang", to_language)])
      end
  end.

(** [DeeplTranslatePlugin.get_source_name]. *)
Definition get_source_name : string := "DeepL Translate".

(** One entry of the list [get_spec] returns: the name, the description
    and the [parameters] object with its [type], [properties] (each with
    [type] and [description]) and [required] list. *)
Record Property : Type := mkProperty {
  property_type : string;
  property_description : string
}.

Record Spec : Type := mkSpec {
  spec_name : string;
  spec_description : string;
  parameters_type : string;
  properties : list (string * Property);
  required : list string
}.

(** [DeeplTranslatePlugin.get_spec]. *)
Definition get_spec : list Spec :=
  [ {| spec_name := "translate";
       spec_description := "Translate a given text from a language to another";
       parameters_type := "object";
       properties :=
         [ ("text", mkProperty "string" "The text to translate");
           ("to_language",
            mkProperty "string" "The language to translate to (e.g. 'it')") ];
       required := ["text"; "to_language"] |} ].

(** A decoded JSON document, as [Response.json()] returns it. *)
#[warnings="-register-all"]
Inductive Json : Type :=
| JNull
| JBool (b : bool)
| JNumber (literal : string)
| JString (s : string)
| JArray (elements : list Json)
| JObject (members : gmap string Json).

(** [value[key]] for a string key. *)
Definition subscript_key (value : Json) (key : string) : Py.Exception + Json :=
  match value with
  | JObject members =>
      match members !! key with
      | Some v => inr v
      | None => inl (Py.KeyError key)
      end
  | JArray _ =>
      inl (Py.OtherException "TypeError" "list indices must be integers or slices, not str")
  | JString _ =>
      inl (Py.OtherException "TypeError" "string indices must be integers, not 'str'")
  | _ => inl (Py.OtherException "TypeError" "object is not subscriptable")
  end.

(** [value[0]]. The keys of a decoded JSON object are strings, so the
    integer key is never found in one. *)
Definition subscript_first (value : Json) : Py.Exception + Json :=
  match value with
  | JArray (v :: _) => inr v
  | JArray [] => inl (Py.OtherException "IndexError" "list index out of range")
  | JString (String c _) => inr (JString (String c EmptyString))
  | JString EmptyString =>
      inl (Py.OtherException "IndexError" "string index out of range")
  | JObject _ => inl (Py.KeyError "0")
  | _ => inl (Py.OtherException "TypeError" "object is not subscriptable")
  end.

(** [DeeplTranslatePlugin.execute] with its last line: the request goes
    through [post], which stands for [requests.post(...).json()] and either
    raises or gives the decoded body, and the text of the first translation
    is taken out of the body. *)
Definition execute_and_read (post : Request -> Py.Exception + Json)
    (self : t) (kwargs : gmap string string) : Py.Exception + Json :=
  match execute self kwargs with
  | inl e => inl e
  | inr request =>
      match post request with
      | inl e => inl e
      | inr body =>
          match subscript_key body "translations" with
          | inl e => inl e
          | inr translations =>
              match subscript_first translations with
              | inl e => inl e
              | inr first => subscript_key first "text"
              end
          end
      end
  end.

End DeeplTranslatePlugin.

(** ** Concrete environments and worlds *)

Module Demo.

(** A clock that advances by one second at every reading, a generator
    that numbers its tokens, and a backend with a fixed outcome. *)
Definition env (outcome : Py.Exception + Response) : Env :=
  mkEnv (fun n => Z.of_nat n) (fun n => pretty n)
        (fun _ bot _ => (bot, outcome))
        (fun _ => mkChatbot None "").

Definition answer : Response :=
  {[ "message" := "hi!"; "conversation_id" := "c1"; "parent_id" := "m1" ]}.

Definition answering : Env := env (inr answer).

Definition failing : Env := env (inl (Py.OtherException "ConnectionError" "unreachable")).

Definition bot : Chatbot := mkChatbot None "".

Definition start : World := initial_world bot.

(** A world in which user 42 holds a pair written [age] seconds before
    the clock started. *)
Definition holding (age : Z) : World :=
  set_cache
    (ExpiringDict.mk MAX_SESSION_NUM MAX_AGE_SECONDS [(42, ((Some "c0", "m0"), - age))])
    start.

(** Writes for the users 0, 1, ..., n-1, in that order. *)
Definition fill (n : nat) : list CacheOp :=
  map (fun i => Put (Z.of_nat i) None "p") (seq 0 n).

Definition private_hello : Update := mkUpdate 42 42 PRIVATE "hello" 7.

(** No backend call is interrupted; every backend call is cancelled; the
    backend exits the interpreter with status 1. *)
Definition undisturbed : nat -> option Py.SystemExiting := fun _ => None.

Definition cancelled : nat -> option Py.SystemExiting :=
  fun _ => Some Py.CancelledError.

Definition exiting : nat -> option Py.SystemExiting :=
  fun _ => Some (Py.SystemExit 1).

End Demo.

(** Closing a goal by evaluation. *)
Ltac by_computation := vm_compute; first [reflexivity | discriminate].

Example split_three : Py.split "," "12,34,,5" = ["12"; "34"; ""; "5"].
Proof. reflexivity. Qed.

Example split_empty : Py.split "," "" = [""].
Proof. reflexivity. Qed.

Example str_neg : Py.str (-1001234) = "-1001234".
Proof. reflexivity. Qed.

Example lower_mixed : Py.lower "TrUe" = "true".
Proof. reflexivity. Qed.

Example allowed_private_wildcard :
  is_allowed (mkConfig "*" "7") (mkUpdate 42 42 PRIVATE "hello" 1) = true.
Proof. reflexivity. Qed.

Example denied_group_user_wildcard :
  is_allowed (mkConfig "*" "7") (mkUpdate 42 8 GROUP "hello" 1) = false.
Proof. reflexivity. Qed.


(** ** The ordered store *)

Module ExpiringDictFacts.
Import ExpiringDict.

Lemma od_get_del_eq k l : od_get k (od_del k l) = None.
Proof.
  induction l as [|[k' e] l IH]; simpl; [reflexivity|].
  destruct (Z.eqb_spec k k') as [->|Hne]; [exact IH|].
  simpl. destruct (Z.eqb_spec k k'); [contradiction | exact IH].
Qed.

Lemma od_get_del_ne k k' l : k <> k' -> od_get k' (od_del k l) = od_get k' l.
Proof.
  intros Hne. induction l as [|[k0 e] l IH]; simpl; [reflexivity|].
  destruct (Z.eqb_spec k k0) as [->|Hk].
  - destruct (Z.eqb_spec k' k0) as [->|]; [contradiction | exact IH].
  - simpl. rewrite IH. reflexivity.
Qed.

Lemma od_del_absent k l : od_get k l = None -> od_del k l = l.
Proof.
  induction l as [|[k0 e] l IH]; simpl; [reflexivity|].
  destruct (Z.eqb_spec k k0); [discriminate|].
  intros H. rewrite (IH H). reflexivity.
Qed.

Lemma od_get_app k l l' :
  od_get k (l ++ l') = match od_get k l with
                       | Some e => Some e
                       | None => od_get k l'
                       end.
Proof.
  induction l as [|[k0 e] l IH]; simpl; [reflexivity|].
  destruct (Z.eqb k k0); [reflexivity | exact IH].
Qed.

Lemma od_get_tl_absent k l : od_get k l = None -> od_get k (tl l) = None.
Proof.
  destruct l as [|[k0 e] l]; simpl; [auto|].
  destruct (Z.eqb k k0); [discriminate | auto].
Qed.

Lemma od_get_absent_iff k l : od_get k l = None <-> ~ In k (map fst l).
Proof.
  induction l as [|[k0 e] l IH]; simpl; [tauto|].
  destruct (Z.eqb_spec k k0) as [->|Hne].
  - split; [discriminate | intros H; exfalso; apply H; left; reflexivity].
  - rewrite IH. split; [intros H [?|?]; [congruence | contradiction] | tauto].
Qed.

Lemma length_od_del k l : (length (od_del k l) <= length l)%nat.
Proof.
  induction l as [|[k0 e] l IH]; simpl; [lia|].
  destruct (Z.eqb k k0); simpl; lia.
Qed.

Lemma keys_od_del k k' l : In k' (map fst (od_del k l)) -> In k' (map fst l).
Proof.
  induction l as [|[k0 e] l IH]; simpl; [tauto|].
  destruct (Z.eqb k k0); simpl; tauto.
Qed.

Lemma NoDup_od_del k l : List.NoDup (map fst l) -> List.NoDup (map fst (od_del k l)).
Proof.
  induction l as [|[k0 e] l IH]; simpl; intros H; [exact H|].
  inversion H as [|? ? Hnin Hnd]; subst.
  destruct (Z.eqb k k0); [auto|].
  simpl. constructor; [|auto].
  intros Hin. apply Hnin. eapply keys_od_del; eassumption.
Qed.

Lemma NoDup_tl (l : list (Z * (Value * Z))) :
  List.NoDup (map fst l) -> List.NoDup (map fst (tl l)).
Proof.
  destruct l; simpl; [auto|]. intros H; inversion H; assumption.
Qed.

Lemma keys_tl k (l : list (Z * (Value * Z))) :
  In k (map fst (tl l)) -> In k (map fst l).
Proof. destruct l; simpl; tauto. Qed.

Lemma setitem_items now k v d :
  items (setitem now k v d) = (room k d ++ [(k, (v, now))])%list.
Proof. reflexivity. Qed.

Lemma room_absent k d : od_get k (room k d) = None.
Proof.
  unfold room. destruct (max_len d <=? length (od_del k (items d)))%nat.
  - apply od_get_tl_absent, od_get_del_eq.
  - apply od_get_del_eq.
Qed.

(** A write is observed by a raw lookup, whatever was stored before. *)
Lemma od_get_setitem_eq now k v d :
  od_get k (items (setitem now k v d)) = Some (v, now).
Proof.
  rewrite setitem_items, od_get_app, room_absent. simpl.
  rewrite Z.eqb_refl. reflexivity.
Qed.

Lemma live_setitem_eq t now k v d :
  t - now <= max_age_seconds d -> live t k (setitem now k v d) = Some v.
Proof.
  intros H. unfold live. rewrite od_get_setitem_eq.
  unfold expired. cbn [max_age_seconds setitem with_items].
  destruct (Z.ltb_spec (max_age_seconds d) (t - now)); [lia | reflexivity].
Qed.

Lemma contains_live now k d v : live now k d = Some v -> contains now k d = (true, d).
Proof.
  unfold live, contains. destruct (od_get k (items d)) as [[v' written]|]; [|discriminate].
  destruct (expired d now written); [discriminate | reflexivity].
Qed.

Lemma getitem_live now k d v : live now k d = Some v -> getitem now k d = (Some v, d).
Proof.
  unfold live, getitem. destruct (od_get k (items d)) as [[v' written]|]; [|discriminate].
  destruct (expired d now written); [discriminate | congruence].
Qed.

Lemma contains_dead now k d :
  live now k d = None ->
  contains now k d = (false, with_items d (od_del k (items d))).
Proof.
  unfold live, contains. destruct (od_get k (items d)) as [[v' written]|] eqn:E.
  - destruct (expired d now written); [reflexivity | discriminate].
  - intros _. rewrite (od_del_absent _ _ E). destruct d; reflexivity.
Qed.

Lemma getitem_dead now k d :
  live now k d = None ->
  getitem now k d = (None, with_items d (od_del k (items d))).
Proof.
  unfold live, getitem. destruct (od_get k (items d)) as [[v' written]|] eqn:E.
  - destruct (expired d now written); [reflexivity | discriminate].
  - intros _. rewrite (od_del_absent _ _ E). destruct d; reflexivity.
Qed.

Lemma well_formed_del k d :
  well_formed d -> well_formed (with_items d (od_del k (items d))).
Proof.
  intros (Hnd & Hlen & Hpos). repeat split; cbn [items max_len with_items].
  - apply NoDup_od_del, Hnd.
  - pose proof (length_od_del k (items d)). lia.
  - exact Hpos.
Qed.

Lemma length_room k d :
  well_formed d -> (S (length (room k d)) <= max_len d)%nat.
Proof.
  intros (_ & Hlen & Hpos). unfold room.
  pose proof (length_od_del k (items d)) as Hdel.
  destruct (Nat.leb_spec (max_len d) (length (od_del k (items d)))) as [Hfull|Hfree].
  - destruct (od_del k (items d)); simpl in *; lia.
  - lia.
Qed.

Lemma well_formed_setitem now k v d :
  well_formed d -> well_formed (setitem now k v d).
Proof.
  intros Hwf. pose proof (length_room k d Hwf) as Hroom.
  destruct Hwf as (Hnd & Hlen & Hpos).
  repeat split; cbn [items max_len with_items setitem].
  - rewrite map_app. apply List.NoDup_app.
    + unfold room. destruct (max_len d <=? _)%nat.
      * apply NoDup_tl, NoDup_od_del, Hnd.
      * apply NoDup_od_del, Hnd.
    + simpl. constructor; [intros [] | constructor].
    + intros a Ha [<-|[]]. revert Ha. apply od_get_absent_iff, room_absent.
  - rewrite length_app. simpl. lia.
  - exact Hpos.
Qed.

Lemma well_formed_contains now k d :
  well_formed d -> well_formed (snd (contains now k d)).
Proof.
  intros Hwf. unfold contains.
  destruct (od_get k (items d)) as [[v written]|]; [|exact Hwf].
  destruct (expired d now written); [apply well_formed_del, Hwf | exact Hwf].
Qed.

Lemma well_formed_getitem now k d :
  well_formed d -> well_formed (snd (getitem now k d)).
Proof.
  intros Hwf. unfold getitem.
  destruct (od_get k (items d)) as [[v written]|]; [|exact Hwf].
  destruct (expired d now written); [apply well_formed_del, Hwf | exact Hwf].
Qed.

Lemma limits_contains now k d :
  max_len (snd (contains now k d)) = max_len d
  /\ max_age_seconds (snd (contains now k d)) = max_age_seconds d.
Proof.
  unfold contains. destruct (od_get k (items d)) as [[v written]|]; [|tauto].
  destruct (expired d now written); cbn; tauto.
Qed.

Lemma limits_getitem now k d :
  max_len (snd (getitem now k d)) = max_len d
  /\ max_age_seconds (snd (getitem now k d)) = max_age_seconds d.
Proof.
  unfold getitem. destruct (od_get k (items d)) as [[v written]|]; [|tauto].
  destruct (expired d now written); cbn; tauto.
Qed.



(** Writing a new key into a full store pushes the oldest entry out. *)
Lemma setitem_evicts k d :
  well_formed d ->
  length (items d) = max_len d ->
  od_get k (items d) = None ->
  exists victim,
    od_get victim (items d) <> None
    /\ victim <> k
    /\ forall now v, od_get victim (items (setitem now k v d)) = None.
Proof.
  intros (Hnd & _ & Hpos) Hfull Habsent.
  destruct (items d) as [|[k0 e0] rest] eqn:Eitems; [simpl in Hfull; lia|].
  assert (Hne : k0 <> k).
  { intros ->. simpl in Habsent. rewrite Z.eqb_refl in Habsent. discriminate. }
  exists k0. split; [|split; [exact Hne|]].
  - simpl. rewrite Z.eqb_refl. discriminate.
  - intros now v. rewrite setitem_items. unfold room. rewrite Eitems.
    rewrite (od_del_absent _ _ Habsent), <- Hfull, Nat.leb_refl. cbn [tl].
    rewrite od_get_app. simpl in Hnd. inversion Hnd as [|? ? Hnin _]; subst.
    apply od_get_absent_iff in Hnin. rewrite Hnin. simpl.
    destruct (Z.eqb_spec k0 k); [contradiction | reflexivity].
Qed.

Lemma live_count_le now d : (live_count now d <= length (items d))%nat.
Proof. unfold live_count. apply filter_length_le. Qed.

End ExpiringDictFacts.

(** ** Access policy: the code follows the ordered rules *)

Lemma str_not_star (n : Z) : Py.str n <> "*".
Proof.
  unfold Py.str. destruct n as [|p|p]; simpl.
  - discriminate.
  - destruct (Pos.to_uint p); discriminate.
  - discriminate.
Qed.

Lemma wildcard_list_holds_no_id (n : Z) : Py.str n ∉ Py.split "," "*".
Proof.
  simpl. intros H. apply list_elem_of_singleton in H.
  exact (str_not_star n H).
Qed.

Lemma in_group_kinds (k : ChatType) :
  bool_decide (k ∈ [GROUP; SUPERGROUP])
  = bool_decide (k = GROUP) || bool_decide (k = SUPERGROUP).
Proof.
  destruct k; reflexivity.
Qed.

(** C1. [is_allowed] answers exactly as the five ordered rules do: wildcard
    users in a private chat, wildcard chats in a group, an explicitly
    listed requester in a private chat, an explicitly listed chat in a
    group or supergroup, and a refusal otherwise. A wildcard never crosses
    chat kinds: with wildcard users a group message is allowed only when
    the chat list itself admits the chat, and with wildcard chats a private
    message only when the user list itself admits the requester. *)
Theorem is_allowed_follows_rules :
  (forall config update,
     is_allowed config update
     = AccessPolicy.to_bool
         (AccessPolicy.decide_rules
            (AccessPolicy.of_config (allowed_user_ids config))
            (AccessPolicy.of_config (allowed_chat_ids config))
            (Py.str (from_user_id update)) (Py.str (chat_id update))
            (chat_type update)))
  /\ (forall chats uid cid body mid,
        is_allowed (mkConfig "*" chats) (mkUpdate uid cid GROUP body mid) = true
        <-> chats = "*" \/ Py.str cid ∈ Py.split "," chats)
  /\ (forall users uid cid body mid,
        is_allowed (mkConfig users "*") (mkUpdate uid cid PRIVATE body mid) = true
        <-> users = "*" \/ Py.str uid ∈ Py.split "," users).
Proof.
  split; [|split].
  - intros [users chats] [uid cid kind body mid].
    unfold is_allowed, AccessPolicy.decide_rules, AccessPolicy.of_config.
    cbn [allowed_user_ids allowed_chat_ids from_user_id chat_id chat_type].
    rewrite in_group_kinds.
    pose proof (wildcard_list_holds_no_id uid) as Hu.
    pose proof (wildcard_list_holds_no_id cid) as Hc.
    destruct (bool_decide (users = "*")) eqn:Eu;
      destruct (bool_decide (chats = "*")) eqn:Ec;
      cbn [AccessPolicy.is_wildcard AccessPolicy.in_explicit andb];
      try (apply bool_decide_eq_true in Eu; subst users);
      try (apply bool_decide_eq_true in Ec; subst chats);
      try rewrite (bool_decide_eq_false_2 _ Hu);
      try rewrite (bool_decide_eq_false_2 _ Hc);
      destruct kind; cbn;
      repeat match goal with
             | |- context [bool_decide ?P] => destruct (bool_decide P)
             end; reflexivity.
  - intros chats uid cid body mid.
    unfold is_allowed.
    cbn [allowed_user_ids allowed_chat_ids from_user_id chat_id chat_type].
    rewrite in_group_kinds. cbn.
    rewrite !andb_false_r, !andb_true_r, orb_false_r.
    destruct (bool_decide (chats = "*")) eqn:Ec.
    + apply bool_decide_eq_true in Ec. split; auto.
    + apply bool_decide_eq_false in Ec.
      rewrite bool_decide_eq_true. split; [auto | intros [?|?]; tauto].
  - intros users uid cid body mid.
    unfold is_allowed.
    cbn [allowed_user_ids allowed_chat_ids from_user_id chat_id chat_type].
    rewrite in_group_kinds. cbn.
    rewrite !andb_false_r, !andb_true_r.
    destruct (bool_decide (users = "*")) eqn:Eu.
    + apply bool_decide_eq_true in Eu. split; auto.
    + apply bool_decide_eq_false in Eu. cbn.
      rewrite bool_decide_eq_true. split; [auto | intros [?|?]; tauto].
Qed.

(** ** Reading and writing the cache *)

Section CacheAccess.

Variable env : Env.

Import ExpiringDict ExpiringDictFacts.

(** A user with a pair that stays live over both accesses reads it back,
    and nothing but the count of clock readings changes. *)
Lemma get_prev_conv_id_existing user w v :
  live_at (clock_after env 0 w) user w = Some v ->
  live_at (clock_after env 1 w) user w = Some v ->
  get_prev_conv_id env user w
  = (inr v,
     mkWorld (prev_conv_id_cache w) (gpt3_bot w) (2 + clock_reads w)
             (uuids_drawn w) (backend_calls w) (trace w)).
Proof.
  unfold live_at, clock_after. cbn [Nat.add]. intros H0 H1.
  unfold get_prev_conv_id, mbind, M_bind, cache_contains, now.
  rewrite (contains_live _ _ _ _ H0). cbn.
  unfold cache_getitem, now. cbn.
  rewrite (getitem_live _ _ _ _ H1). destruct v. reflexivity.
Qed.

Lemma get_prev_conv_id_absent user w :
  live_at (clock_after env 0 w) user w = None ->
  get_prev_conv_id env user w
  = if expired (created env user w) (clock_after env 2 w) (clock_after env 1 w)
    then (inl (Py.KeyError (Py.str user)),
          mkWorld (with_items (created env user w)
                     (od_del user (items (created env user w))))
                  (gpt3_bot w) (3 + clock_reads w)
                  (S (uuids_drawn w)) (backend_calls w) (trace w))
    else (inr (None, uuid4 env (uuids_drawn w)),
          mkWorld (created env user w) (gpt3_bot w) (3 + clock_reads w)
                  (S (uuids_drawn w)) (backend_calls w) (trace w)).
Proof.
  unfold live_at, clock_after. cbn [Nat.add]. intros H0.
  unfold get_prev_conv_id, mbind, M_bind, cache_contains, now.
  rewrite (contains_dead _ _ _ H0). cbn.
  unfold cache_getitem, now, getitem. cbn [prev_conv_id_cache set_cache read_clock clock_reads draw_uuid].
  rewrite od_get_setitem_eq.
  unfold created, clock_after. cbn [Nat.add].
  destruct (expired _ _ _); reflexivity.
Qed.

(** Creation: a user without live pair gets a fresh one, provided the new
    pair survives until it is read back. *)
Lemma get_or_create_fresh user w :
  live_at (clock_after env 0 w) user w = None ->
  clock_after env 2 w - clock_after env 1 w <= ttl w ->
  exists w',
    get_prev_conv_id env user w = (inr (None, uuid4 env (uuids_drawn w)), w')
    /\ entry user w'
       = Some ((None, uuid4 env (uuids_drawn w)), clock_after env 1 w)
    /\ w' = mkWorld (created env user w) (gpt3_bot w) (3 + clock_reads w)
                    (S (uuids_drawn w)) (backend_calls w) (trace w).
Proof.
  intros Hdead Hgap.
  rewrite (get_prev_conv_id_absent user w Hdead).
  unfold expired. cbn [max_age_seconds created setitem with_items].
  unfold ttl in Hgap.
  destruct (Z.ltb_spec (max_age_seconds (prev_conv_id_cache w))
              (clock_after env 2 w - clock_after env 1 w)) as [Hlt|_]; [lia|].
  eexists. split; [reflexivity|]. split; [|reflexivity].
  unfold entry. cbn [prev_conv_id_cache]. apply od_get_setitem_eq.
Qed.

(** What a lookup may change: the cache keeps its limits and its
    well-formedness, tokens are only ever drawn, and the backend client
    and the trace are left alone. *)
Lemma get_prev_conv_id_frame user w :
  let w' := snd (get_prev_conv_id env user w) in
  (well_formed (prev_conv_id_cache w) -> well_formed (prev_conv_id_cache w'))
  /\ max_len (prev_conv_id_cache w') = max_len (prev_conv_id_cache w)
  /\ ttl w' = ttl w
  /\ (uuids_drawn w <= uuids_drawn w')%nat
  /\ gpt3_bot w' = gpt3_bot w
  /\ backend_calls w' = backend_calls w
  /\ trace w' = trace w.
Proof.
  unfold get_prev_conv_id, mbind, M_bind, cache_contains, ttl.
  pose proof (well_formed_contains (now env w) user (prev_conv_id_cache w)) as Hwf1.
  pose proof (limits_contains (now env w) user (prev_conv_id_cache w)) as [Hl1 Ha1].
  destruct (contains (now env w) user (prev_conv_id_cache w)) as [present d1].
  cbn [snd] in Hwf1, Hl1, Ha1. destruct present; cbn [negb].
  - unfold cache_getitem, mret, M_ret.
    cbn [prev_conv_id_cache set_cache read_clock].
    set (t1 := now env _).
    pose proof (well_formed_getitem t1 user d1) as Hwf2.
    pose proof (limits_getitem t1 user d1) as [Hl2 Ha2].
    destruct (getitem t1 user d1) as [[[c p]|] d2]; cbn in *;
      (split; [tauto | repeat split; congruence || lia]).
  - unfold generate_uuid, cache_setitem, cache_getitem, mret, M_ret.
    cbn [prev_conv_id_cache set_cache read_clock draw_uuid uuids_drawn].
    set (tok := uuid4 env _).
    set (t1 := now env (draw_uuid _)). set (t2 := now env _).
    pose proof (well_formed_setitem t1 user (None, tok) d1) as Hwf2.
    pose proof (well_formed_getitem t2 user (setitem t1 user (None, tok) d1)) as Hwf3.
    pose proof (limits_getitem t2 user (setitem t1 user (None, tok) d1)) as [Hl3 Ha3].
    assert (Hl2 : max_len (setitem t1 user (None, tok) d1) = max_len d1) by reflexivity.
    assert (Ha2 : max_age_seconds (setitem t1 user (None, tok) d1)
                  = max_age_seconds d1) by reflexivity.
    destruct (getitem t2 user (setitem t1 user (None, tok) d1)) as [[[c p]|] d3];
      cbn [snd fst prev_conv_id_cache set_cache read_clock draw_uuid
           uuids_drawn gpt3_bot backend_calls trace] in *;
      (split; [tauto | repeat split; congruence || lia]).
Qed.

Lemma exec_op_frame op w :
  let w' := exec_op env op w in
  (well_formed (prev_conv_id_cache w) -> well_formed (prev_conv_id_cache w'))
  /\ max_len (prev_conv_id_cache w') = max_len (prev_conv_id_cache w)
  /\ ttl w' = ttl w
  /\ (uuids_drawn w <= uuids_drawn w')%nat.
Proof.
  destruct op as [user|user c p]; cbn [exec_op].
  - pose proof (get_prev_conv_id_frame user w). cbn zeta in *. tauto.
  - unfold set_prev_conv_id, cache_setitem, ttl. cbn.
    split; [apply well_formed_setitem | repeat split; lia].
Qed.

Lemma run_frame ops w :
  let w' := run env ops w in
  (well_formed (prev_conv_id_cache w) -> well_formed (prev_conv_id_cache w'))
  /\ max_len (prev_conv_id_cache w') = max_len (prev_conv_id_cache w)
  /\ ttl w' = ttl w
  /\ (uuids_drawn w <= uuids_drawn w')%nat.
Proof.
  revert w. induction ops as [|op ops IH]; intros w; cbn.
  - split; [tauto | repeat split; lia].
  - specialize (IH (exec_op env op w)). cbn zeta in IH.
    pose proof (exec_op_frame op w) as Hop. cbn zeta in Hop.
    unfold run in IH.
    destruct IH as (I1 & I2 & I3 & I4). destruct Hop as (O1 & O2 & O3 & O4).
    split; [tauto | repeat split; congruence || lia].
Qed.

Lemma initial_well_formed bot : well_formed (prev_conv_id_cache (initial_world bot)).
Proof.
  repeat split; cbn; [constructor | unfold MAX_SESSION_NUM; lia ..].
Qed.

End CacheAccess.

(** ** The continuity cache *)

(** C5. A user without live pair is given the pair of no conversation and
    the next token of the generator, which is stored and returned; a user
    with a live pair reads it back and the cache is left as it was; and
    two creating calls, for two different users, return different tokens
    (the generator never repeating itself). The creating call needs the
    new pair to survive until it is read back, one clock reading later. *)
Theorem get_or_create_contract (env : Env) :
  (forall user w,
     live_at (clock_after env 0 w) user w = None ->
     clock_after env 2 w - clock_after env 1 w <= ttl w ->
     exists w',
       get_prev_conv_id env user w = (inr (None, uuid4 env (uuids_drawn w)), w')
       /\ entry user w'
          = Some ((None, uuid4 env (uuids_drawn w)), clock_after env 1 w)
       /\ uuids_drawn w' = S (uuids_drawn w))
  /\ (forall user w v,
        live_at (clock_after env 0 w) user w = Some v ->
        live_at (clock_after env 1 w) user w = Some v ->
        exists w',
          get_prev_conv_id env user w = (inr v, w')
          /\ prev_conv_id_cache w' = prev_conv_id_cache w
          /\ uuids_drawn w' = uuids_drawn w)
  /\ (forall u1 u2 between w c1 t1 w1 c2 t2 w2,
        (forall i j, uuid4 env i = uuid4 env j -> i = j) ->
        u1 <> u2 ->
        live_at (clock_after env 0 w) u1 w = None ->
        get_prev_conv_id env u1 w = (inr (c1, t1), w1) ->
        live_at (clock_after env 0 (run env between w1)) u2 (run env between w1)
        = None ->
        get_prev_conv_id env u2 (run env between w1) = (inr (c2, t2), w2) ->
        t1 <> t2).
Proof.
  split; [|split].
  - intros user w Hdead Hgap.
    destruct (get_or_create_fresh env user w Hdead Hgap) as (w' & Hrun & Hstored & ->).
    eexists. split; [exact Hrun|]. split; [exact Hstored | reflexivity].
  - intros user w v H0 H1.
    rewrite (get_prev_conv_id_existing env user w v H0 H1).
    eexists. split; [reflexivity|]. split; reflexivity.
  - intros u1 u2 between w c1 t1 w1 c2 t2 w2 Hinj _ Hdead1 Hget1 Hdead2 Hget2.
    rewrite (get_prev_conv_id_absent env u1 w Hdead1) in Hget1.
    rewrite (get_prev_conv_id_absent env u2 _ Hdead2) in Hget2.
    destruct (ExpiringDict.expired _ _ _) in Hget1; [discriminate|].
    destruct (ExpiringDict.expired _ _ _) in Hget2; [discriminate|].
    injection Hget1 as _ Ht1 Hw1. injection Hget2 as _ Ht2 _.
    pose proof (run_frame env between w1) as (_ & _ & _ & Hmono).
    subst w1 t1 t2. cbn [uuids_drawn] in Hmono.
    intros Heq. apply Hinj in Heq. lia.
Qed.

(** C6. After [set_prev_conv_id user c p], the store holds exactly [(c, p)]
    for the user, stamped with the time of the write, whatever it held
    before; and a lookup whose two clock readings fall within the
    time-to-live of that write returns exactly [(c, p)]. *)
Theorem put_then_get (env : Env) (user : Z) (c : option string) (p : string)
    (w : World) :
  clock_after env 1 w - clock_after env 0 w <= ttl w ->
  clock_after env 2 w - clock_after env 0 w <= ttl w ->
  entry user (snd (set_prev_conv_id env user c p w))
  = Some ((c, p), clock_after env 0 w)
  /\ fst (get_prev_conv_id env user (snd (set_prev_conv_id env user c p w)))
     = inr (c, p).
Proof.
  intros H1 H2. split.
  - unfold entry, set_prev_conv_id, cache_setitem. cbn [snd prev_conv_id_cache set_cache].
    apply ExpiringDictFacts.od_get_setitem_eq.
  - rewrite (get_prev_conv_id_existing env user _ (c, p)); [reflexivity | |];
      unfold live_at, set_prev_conv_id, cache_setitem;
      cbn [snd prev_conv_id_cache set_cache];
      apply ExpiringDictFacts.live_setitem_eq; exact H1 || exact H2.
Qed.


(** C8. Whatever sequence of lookups and writes the cache has gone through,
    it stores at most 1000 entries, so at most 1000 are live at any
    instant; and when it is full, a lookup or a write for a user it does
    not store pushes out an entry that was stored before. *)
Theorem cache_capacity_bound (env : Env) (bot : Chatbot) (ops : list CacheOp) :
  MAX_SESSION_NUM = 1000%nat
  /\ (length (ExpiringDict.items (prev_conv_id_cache (run env ops (initial_world bot))))
      <= MAX_SESSION_NUM)%nat
  /\ (forall t,
        (ExpiringDict.live_count t (prev_conv_id_cache (run env ops (initial_world bot)))
         <= MAX_SESSION_NUM)%nat)
  /\ (forall user c p,
        length (ExpiringDict.items (prev_conv_id_cache (run env ops (initial_world bot))))
        = MAX_SESSION_NUM ->
        entry user (run env ops (initial_world bot)) = None ->
        exists victim,
          entry victim (run env ops (initial_world bot)) <> None
          /\ entry victim
               (exec_op env (Put user c p) (run env ops (initial_world bot))) = None
          /\ entry victim
               (exec_op env (GetOrCreate user) (run env ops (initial_world bot))) = None).
Proof.
  pose proof (run_frame env ops (initial_world bot)) as (Hwf & Hmax & _ & _).
  specialize (Hwf (initial_well_formed bot)).
  set (w := run env ops (initial_world bot)) in *.
  cbn [initial_world prev_conv_id_cache ExpiringDict.max_len] in Hmax.
  assert (Hlen : (length (ExpiringDict.items (prev_conv_id_cache w)) <= MAX_SESSION_NUM)%nat).
  { destruct Hwf as (_ & Hlen & _). rewrite Hmax in Hlen. exact Hlen. }
  split; [reflexivity|]. split; [exact Hlen|]. split.
  - intros t. pose proof (ExpiringDictFacts.live_count_le t (prev_conv_id_cache w)). lia.
  - intros user c p Hfull Habsent. rewrite <- Hmax in Hfull. unfold entry in Habsent.
    assert (Hdead : forall t, live_at t user w = None).
    { intros t. unfold live_at, ExpiringDict.live. rewrite Habsent. reflexivity. }
    assert (Hsame : ExpiringDict.with_items (prev_conv_id_cache w)
                      (ExpiringDict.od_del user (ExpiringDict.items (prev_conv_id_cache w)))
                    = prev_conv_id_cache w).
    { rewrite (ExpiringDictFacts.od_del_absent _ _ Habsent).
      destruct (prev_conv_id_cache w); reflexivity. }
    destruct (ExpiringDictFacts.setitem_evicts user (prev_conv_id_cache w)
                Hwf Hfull Habsent) as (victim & Hin & Hne & Hout).
    exists victim. split; [exact Hin|]. split.
    + apply Hout.
    + cbn [exec_op]. rewrite (get_prev_conv_id_absent env user w (Hdead _)).
      assert (Hgone : ExpiringDict.od_get victim (ExpiringDict.items (created env user w)) = None).
      { unfold created. rewrite Hsame. apply Hout. }
      destruct (ExpiringDict.expired _ _ _); unfold entry; cbn [snd prev_conv_id_cache].
      * cbn [ExpiringDict.items ExpiringDict.with_items].
        rewrite ExpiringDictFacts.od_get_del_ne by congruence. exact Hgone.
      * exact Hgone.
Qed.

(** ** The relay *)

Section Relay.

Variable env : Env.

(** A failed lookup is turned into the fallback. *)
Lemma relay_lookup_failed message user w e w1 :
  get_prev_conv_id env user w = (inl e, w1) ->
  get_chatgpt_response env message user w = (inr fallback_response, w1).
Proof.
  intros Hget. unfold get_chatgpt_response, try_except, mbind, M_bind.
  rewrite Hget. reflexivity.
Qed.

(** After a successful lookup the backend is asked with the pair that was
    read; its outcome decides between the fallback and a write. *)
Lemma relay_after_lookup message user w c p w1 :
  get_prev_conv_id env user w = (inr (c, p), w1) ->
  get_chatgpt_response env message user w
  = let asked :=
      count_call (emit (BackendRequest message c p) (set_bot (mkChatbot c p) w1)) in
    match get_chat_response_result env (backend_calls w1) (mkChatbot c p) message with
    | (bot', inl e) => (inr fallback_response, set_bot bot' asked)
    | (bot', inr response) =>
        match response !! "conversation_id", response !! "parent_id" with
        | Some new_c, Some new_p =>
            (inr response,
             snd (set_prev_conv_id env user (Some new_c) new_p (set_bot bot' asked)))
        | _, _ => (inr fallback_response, set_bot bot' asked)
        end
    end.
Proof.
  intros Hget. unfold get_chatgpt_response, try_except, mbind, M_bind.
  rewrite Hget. cbn.
  unfold get_chat_response. cbn.
  destruct (get_chat_response_result env (backend_calls w1) (mkChatbot c p) message)
    as [bot' [e|response]]; [reflexivity|].
  unfold dict_getitem.
  destruct (response !! "conversation_id"); [|reflexivity].
  cbn. destruct (response !! "parent_id"); reflexivity.
Qed.

(** As long as nothing from outside [Exception] is raised, the relay always
    returns a dictionary. *)
Lemma relay_never_raises message user w :
  exists response w', get_chatgpt_response env message user w = (inr response, w').
Proof.
  destruct (get_prev_conv_id env user w) as [[e|[c p]] w1] eqn:Hget.
  - rewrite (relay_lookup_failed _ _ _ _ _ Hget). eauto.
  - rewrite (relay_after_lookup _ _ _ _ _ _ Hget). cbn zeta.
    destruct (get_chat_response_result _ _ _ _) as [bot' [e|response]]; [eauto|].
    destruct (response !! "conversation_id"); [|eauto].
    destruct (response !! "parent_id"); eauto.
Qed.

End Relay.

(** C9. Handling the reset command leaves the continuity cache exactly as it
    was, for every user, allowed or not: the stored pairs and their write
    times are the same and the clock has not been read. When the requester
    is allowed, only the backend client object changes, by the backend's
    own reset, and the reply is sent. *)
Theorem reset_leaves_cache (env : Env) (config : Config) (update : Update)
    (w : World) :
  prev_conv_id_cache (snd (reset env config update w)) = prev_conv_id_cache w
  /\ (forall user, entry user (snd (reset env config update w)) = entry user w)
  /\ clock_reads (snd (reset env config update w)) = clock_reads w
  /\ (if is_allowed config update
      then gpt3_bot (snd (reset env config update w))
           = reset_chat_result env (gpt3_bot w)
           /\ trace (snd (reset env config update w))
              = SendMessage (chat_id update) None "Done!" :: BackendReset :: trace w
      else gpt3_bot (snd (reset env config update w)) = gpt3_bot w).
Proof.
  unfold reset, entry. destruct (is_allowed config update); cbn; auto.
Qed.

Section FirstContact.

Variable env : Env.


(** The relay on a user without live pair, when the backend call raises. *)
Lemma relay_first_message_fails message user w bot' e :
  live_at (clock_after env 0 w) user w = None ->
  clock_after env 2 w - clock_after env 1 w <= ttl w ->
  get_chat_response_result env (backend_calls w)
    (mkChatbot None (uuid4 env (uuids_drawn w))) message = (bot', inl e) ->
  get_chatgpt_response env message user w
  = (inr fallback_response,
     mkWorld (created env user w) bot' (3 + clock_reads w) (S (uuids_drawn w))
             (S (backend_calls w))
             (BackendRequest message None (uuid4 env (uuids_drawn w)) :: trace w)).
Proof.
  intros Hdead Hgap Hback.
  destruct (get_or_create_fresh env user w Hdead Hgap) as (w1 & Hget & _ & Hw1).
  rewrite (relay_after_lookup env _ _ _ _ _ _ Hget). cbn zeta.
  subst w1. cbn [backend_calls]. rewrite Hback. reflexivity.
Qed.

(** The relay on a user whose pair stays live over the lookup: the backend
    is asked with exactly that pair. *)
Lemma relay_asks_with_live_pair message user w c p :
  live_at (clock_after env 0 w) user w = Some (c, p) ->
  live_at (clock_after env 1 w) user w = Some (c, p) ->
  trace (snd (get_chatgpt_response env message user w))
  = BackendRequest message c p :: trace w.
Proof.
  intros H0 H1.
  rewrite (relay_after_lookup env _ _ _ _ _ _
             (get_prev_conv_id_existing env user w (c, p) H0 H1)).
  cbn zeta.
  destruct (get_chat_response_result _ _ _ _) as [bot' [e|response]]; [reflexivity|].
  destruct (response !! "conversation_id"); [|reflexivity].
  destruct (response !! "parent_id"); reflexivity.
Qed.


End FirstContact.


(** C10. When the backend call raises for a user whose pair is live, the
    relay answers with the fallback and the cache is exactly what it was.
    When it raises for a user without live pair, the pair of no
    conversation and the token drawn by the lookup stays in the cache, and
    a retry made while that pair is live asks the backend with the same
    token. *)
Theorem backend_failure_and_cache (env : Env) (message : string) (user : Z)
    (w : World) :
  (forall c p bot' e,
     live_at (clock_after env 0 w) user w = Some (c, p) ->
     live_at (clock_after env 1 w) user w = Some (c, p) ->
     get_chat_response_result env (backend_calls w) (mkChatbot c p) message
     = (bot', inl e) ->
     fst (get_chatgpt_response env message user w) = inr fallback_response
     /\ prev_conv_id_cache (snd (get_chatgpt_response env message user w))
        = prev_conv_id_cache w)
  /\ (forall bot' e,
        live_at (clock_after env 0 w) user w = None ->
        clock_after env 2 w - clock_after env 1 w <= ttl w ->
        get_chat_response_result env (backend_calls w)
          (mkChatbot None (uuid4 env (uuids_drawn w))) message
        = (bot', inl e) ->
        fst (get_chatgpt_response env message user w) = inr fallback_response
        /\ entry user (snd (get_chatgpt_response env message user w))
           = Some ((None, uuid4 env (uuids_drawn w)), clock_after env 1 w)
        /\ forall retry_message,
             clock_after env 3 w - clock_after env 1 w <= ttl w ->
             clock_after env 4 w - clock_after env 1 w <= ttl w ->
             trace (snd (get_chatgpt_response env retry_message user
                           (snd (get_chatgpt_response env message user w))))
             = BackendRequest retry_message None (uuid4 env (uuids_drawn w))
               :: trace (snd (get_chatgpt_response env message user w))).
Proof.
  split.
  - intros c p bot' e H0 H1 Hback.
    rewrite (relay_after_lookup env _ _ _ _ _ _
               (get_prev_conv_id_existing env user w (c, p) H0 H1)).
    cbn zeta. cbn [backend_calls]. rewrite Hback. split; reflexivity.
  - intros bot' e Hdead Hgap Hback.
    rewrite (relay_first_message_fails env _ _ _ _ _ Hdead Hgap Hback).
    cbn [fst snd]. split; [reflexivity|]. split.
    + unfold entry, created. cbn [prev_conv_id_cache].
      apply ExpiringDictFacts.od_get_setitem_eq.
    + intros retry_message H3 H4.
      apply relay_asks_with_live_pair;
        unfold live_at, clock_after, created in *;
        cbn [prev_conv_id_cache clock_reads Nat.add] in *;
        apply ExpiringDictFacts.live_setitem_eq; assumption.
Qed.

(** ** The translation plugin *)

(** Every plugin the constructor builds is on the paid tier, so [execute]
    never selects the free endpoint for a constructed plugin. *)
Lemma deepl_constructed_is_pro environ self :
  DeeplTranslatePlugin.init environ = inr self ->
  DeeplTranslatePlugin.api_pro self = true
  /\ forall kwargs request,
       DeeplTranslatePlugin.execute self kwargs = inr request ->
       DeeplTranslatePlugin.url request = DeeplTranslatePlugin.pro_url.
Proof.
  unfold DeeplTranslatePlugin.init.
  destruct (DeeplTranslatePlugin.truthy (environ !! "DEEPL_API_KEY")); [|discriminate].
  destruct (bool_decide (Py.lower (default "false" (environ !! "DEEPL_API_PRO")) = "true"));
    [|discriminate].
  cbn. intros [= <-]. split; [reflexivity|].
  intros kwargs request. unfold DeeplTranslatePlugin.execute. cbn.
  destruct (kwargs !! "text"); [|discriminate].
  destruct (kwargs !! "to_language"); [|discriminate].
  intros [= <-]. reflexivity.
Qed.

(** C4 (the constructor departs from it). Without an API key the
    constructor raises the configuration error, and with a key on the paid
    tier it succeeds and [execute] posts to the paid endpoint; but with a
    key and the tier flag unset, or set to false, it raises the same error
    instead of building a free-tier plugin, although [execute] on a
    free-tier plugin would post to the free endpoint. *)
Theorem deepl_init_rejects_free_tier :
  let config_error := Py.ValueError
    "DEEPL_API_KEY and DEEPL_API_PLAN environment variable must be set to use DeepL Plugin" in
  DeeplTranslatePlugin.init {[ "DEEPL_API_PRO" := "true" ]} = inl config_error
  /\ DeeplTranslatePlugin.init {[ "DEEPL_API_KEY" := "secret"; "DEEPL_API_PRO" := "true" ]}
     = inr (DeeplTranslatePlugin.mk "secret" true)
  /\ DeeplTranslatePlugin.init {[ "DEEPL_API_KEY" := "secret" ]} = inl config_error
  /\ DeeplTranslatePlugin.init {[ "DEEPL_API_KEY" := "secret"; "DEEPL_API_PRO" := "false" ]}
     = inl config_error
  /\ DeeplTranslatePlugin.execute (DeeplTranslatePlugin.mk "secret" false)
       {[ "text" := "ciao"; "to_language" := "en" ]}
     = inr (DeeplTranslatePlugin.mkRequest "https://api-free.deepl.com/v2/translate"
              [("Authorization", "DeepL-Auth-Key secret");
               ("User-Agent", "chatgpt-telegram-bot/0.2.7");
               ("Content-Type", "application/x-www-form-urlencoded")]
              [("text", "ciao"); ("target_lang", "en")])
  /\ DeeplTranslatePlugin.execute (DeeplTranslatePlugin.mk "secret" true)
       {[ "text" := "ciao"; "to_language" := "en" ]}
     = inr (DeeplTranslatePlugin.mkRequest "https://api.deepl.com/v2/translate"
              [("Authorization", "DeepL-Auth-Key secret");
               ("User-Agent", "chatgpt-telegram-bot/0.2.7");
               ("Content-Type", "application/x-www-form-urlencoded")]
              [("text", "ciao"); ("target_lang", "en")]).
Proof. repeat split; vm_compute; reflexivity. Qed.

(** ** The statements at concrete inputs *)

Lemma is_allowed_follows_rules_witness :
  is_allowed (mkConfig "*" "-100,7") (mkUpdate 42 7 GROUP "hello" 1) = true
  /\ is_allowed (mkConfig "12,42" "*") (mkUpdate 42 42 PRIVATE "hello" 1) = true.
Proof.
  destruct is_allowed_follows_rules as (_ & Hgroup & Hprivate). split.
  - apply Hgroup. right. apply (bool_decide_unpack _). vm_compute. exact I.
  - apply Hprivate. right. apply (bool_decide_unpack _). vm_compute. exact I.
Defined.


Lemma get_or_create_contract_witness :
  (exists w',
     get_prev_conv_id Demo.answering 42 Demo.start
     = (inr (None, uuid4 Demo.answering 0), w')
     /\ entry 42 w'
        = Some ((None, uuid4 Demo.answering 0), clock_after Demo.answering 1 Demo.start)
     /\ uuids_drawn w' = 1%nat)
  /\ (exists w',
        get_prev_conv_id Demo.answering 42 (Demo.holding 10)
        = (inr (Some "c0", "m0"), w')
        /\ prev_conv_id_cache w' = prev_conv_id_cache (Demo.holding 10)
        /\ uuids_drawn w' = 0%nat)
  /\ "0" <> "1".
Proof.
  destruct (get_or_create_contract Demo.answering) as (Hnew & Hold & Hdistinct).
  split; [|split].
  - apply (Hnew 42 Demo.start); by_computation.
  - apply (Hold 42 (Demo.holding 10) (Some "c0", "m0")); by_computation.
  - eapply (Hdistinct 1 2 [Put 5 None "p"] Demo.start).
    + intros i j Heq. exact (pretty_nat_inj i j Heq).
    + discriminate.
    + by_computation.
    + by_computation.
    + by_computation.
    + by_computation.
Defined.

Lemma put_then_get_witness :
  entry 42 (snd (set_prev_conv_id Demo.answering 42 (Some "c1") "m1" Demo.start))
  = Some ((Some "c1", "m1"), clock_after Demo.answering 0 Demo.start)
  /\ fst (get_prev_conv_id Demo.answering 42
            (snd (set_prev_conv_id Demo.answering 42 (Some "c1") "m1" Demo.start)))
     = inr (Some "c1", "m1").
Proof.
  apply (put_then_get Demo.answering 42 (Some "c1") "m1" Demo.start); by_computation.
Defined.


Lemma cache_capacity_bound_witness :
  length (ExpiringDict.items
            (prev_conv_id_cache (run Demo.answering (Demo.fill 1000) Demo.start)))
  = MAX_SESSION_NUM
  /\ entry 5000 (run Demo.answering (Demo.fill 1000) Demo.start) = None
  /\ exists victim,
       entry victim (run Demo.answering (Demo.fill 1000) Demo.start) <> None
       /\ entry victim
            (exec_op Demo.answering (Put 5000 None "p")
               (run Demo.answering (Demo.fill 1000) Demo.start)) = None
       /\ entry victim
            (exec_op Demo.answering (GetOrCreate 5000)
               (run Demo.answering (Demo.fill 1000) Demo.start)) = None.
Proof.
  split; [by_computation|]. split; [by_computation|].
  destruct (cache_capacity_bound Demo.answering Demo.bot (Demo.fill 1000))
    as (_ & _ & _ & Hevict).
  apply (Hevict 5000 None "p"); by_computation.
Defined.

Lemma backend_failure_and_cache_witness :
  (fst (get_chatgpt_response Demo.failing "hello" 42 (Demo.holding 10))
   = inr fallback_response
   /\ prev_conv_id_cache (snd (get_chatgpt_response Demo.failing "hello" 42 (Demo.holding 10)))
      = prev_conv_id_cache (Demo.holding 10))
  /\ (entry 42 (snd (get_chatgpt_response Demo.failing "hello" 42 Demo.start))
      = Some ((None, uuid4 Demo.failing 0), clock_after Demo.failing 1 Demo.start)
      /\ trace (snd (get_chatgpt_response Demo.failing "again" 42
                       (snd (get_chatgpt_response Demo.failing "hello" 42 Demo.start))))
         = BackendRequest "again" None (uuid4 Demo.failing 0)
           :: trace (snd (get_chatgpt_response Demo.failing "hello" 42 Demo.start))).
Proof.
  split.
  - destruct (backend_failure_and_cache Demo.failing "hello" 42 (Demo.holding 10))
      as (Hkept & _).
    eapply (Hkept (Some "c0") "m0"); by_computation.
  - destruct (backend_failure_and_cache Demo.failing "hello" 42 Demo.start)
      as (_ & Hfresh).
    destruct (Hfresh (mkChatbot None (uuid4 Demo.failing 0))
                (Py.OtherException "ConnectionError" "unreachable"))
      as (_ & Hstays & Hretry); [by_computation ..|].
    split; [exact Hstays|]. apply Hretry; by_computation.
Defined.

(** ** More on the access policy *)

Lemma is_allowed_unfold (config : Config) (update : Update) :
  is_allowed config update
  = (bool_decide (allowed_user_ids config = "*")
     && bool_decide (chat_type update = PRIVATE))
    || (bool_decide (allowed_chat_ids config = "*")
        && bool_decide (chat_type update = GROUP))
    || (bool_decide (Py.str (chat_id update) ∈ Py.split "," (allowed_chat_ids config))
        && (bool_decide (chat_type update = GROUP)
            || bool_decide (chat_type update = SUPERGROUP)))
    || (bool_decide (Py.str (from_user_id update) ∈ Py.split "," (allowed_user_ids config))
        && bool_decide (chat_type update = PRIVATE)).
Proof.
  unfold is_allowed. rewrite in_group_kinds.
  destruct (bool_decide (allowed_user_ids config = "*") && _); [reflexivity|].
  destruct (bool_decide (allowed_chat_ids config = "*") && _); reflexivity.
Qed.

(** The wildcard on the chat list covers groups only: with it, a message
    from a supergroup is refused, whatever the chat and the user list. *)
Theorem is_allowed_wildcard_not_supergroup (users : string) (update : Update) :
  chat_type update = SUPERGROUP ->
  is_allowed (mkConfig users "*") update = false.
Proof.
  intros Hkind. rewrite is_allowed_unfold. rewrite Hkind.
  cbn [allowed_user_ids allowed_chat_ids].
  rewrite (bool_decide_eq_false_2 _ (wildcard_list_holds_no_id (chat_id update))).
  cbn. rewrite !andb_false_r. reflexivity.
Qed.

Lemma is_allowed_wildcard_not_supergroup_witness :
  is_allowed (mkConfig "42" "*") (mkUpdate 42 (-1001) SUPERGROUP "hello" 1) = false.
Proof.
  apply (is_allowed_wildcard_not_supergroup "42"
           (mkUpdate 42 (-1001) SUPERGROUP "hello" 1)).
  reflexivity.
Defined.

(** *** Decimal identifiers and comma-separated lists *)

Lemma to_int_not_nil (n : Z) :
  Z.to_int n <> Decimal.Pos Decimal.Nil /\ Z.to_int n <> Decimal.Neg Decimal.Nil.
Proof.
  destruct n as [|p|p]; simpl; split; try discriminate;
    intros [= H]; exact (DecimalPos.Unsigned.to_uint_nonnil p H).
Qed.

Lemma str_inj (a b : Z) : Py.str a = Py.str b -> a = b.
Proof.
  unfold Py.str. intros H. apply DecimalZ.to_int_inj.
  destruct (to_int_not_nil a) as [Ha1 Ha2], (to_int_not_nil b) as [Hb1 Hb2].
  pose proof (NilZero.isi (Z.to_int a) Ha1 Ha2) as Ia.
  pose proof (NilZero.isi (Z.to_int b) Hb1 Hb2) as Ib.
  rewrite H in Ia. congruence.
Qed.

Lemma uint_no_comma (d : Decimal.uint) :
  Py.has_char "," (NilEmpty.string_of_uint d) = false.
Proof. induction d; simpl; auto. Qed.

Lemma nat_string_no_comma (d : Decimal.uint) :
  Py.has_char "," (NilZero.string_of_uint d) = false.
Proof.
  unfold NilZero.string_of_uint. destruct d; try reflexivity; apply uint_no_comma.
Qed.

Lemma str_no_comma (n : Z) : Py.has_char "," (Py.str n) = false.
Proof.
  unfold Py.str. destruct n as [|p|p]; cbn [Z.to_int NilZero.string_of_int].
  - reflexivity.
  - apply nat_string_no_comma.
  - cbn [Py.has_char]. rewrite nat_string_no_comma. reflexivity.
Qed.

Lemma str_head (n : Z) : exists c rest, Py.str n = String c rest /\ c <> "*"%char.
Proof.
  unfold Py.str. destruct n as [|p|p]; simpl.
  - eexists _, _. split; [reflexivity | discriminate].
  - destruct (Pos.to_uint p); simpl; eexists _, _; (split; [reflexivity | discriminate]).
  - eexists _, _. split; [reflexivity | discriminate].
Qed.

Lemma split_field (sep : ascii) (field : string) :
  Py.has_char sep field = false -> Py.split sep field = [field].
Proof.
  induction field as [|c field IH]; simpl; [reflexivity|].
  destruct (Ascii.eqb c sep); simpl; [discriminate|].
  intros H. rewrite (IH H). reflexivity.
Qed.

Lemma split_field_then (sep : ascii) (field rest : string) :
  Py.has_char sep field = false ->
  Py.split sep (field +:+ String sep rest) = field :: Py.split sep rest.
Proof.
  induction field as [|c field IH]; simpl.
  - intros _. rewrite Ascii.eqb_refl. reflexivity.
  - destruct (Ascii.eqb c sep); simpl; [discriminate|].
    intros H. rewrite (IH H). reflexivity.
Qed.

(** Splitting what was joined gives the fields back, when no field holds
    the separator and there is at least one field. *)
Lemma split_join (sep : ascii) (fields : list string) :
  Forall (fun field => Py.has_char sep field = false) fields ->
  fields <> [] ->
  Py.split sep (Py.join (String sep EmptyString) fields) = fields.
Proof.
  induction fields as [|field rest IH]; [congruence|].
  intros Hall _. inversion Hall as [|? ? Hfield Hrest]; subst.
  destruct rest as [|next rest].
  - simpl. apply split_field, Hfield.
  - change (Py.join (String sep EmptyString) (field :: next :: rest))
      with (field +:+ String sep (Py.join (String sep EmptyString) (next :: rest))).
    rewrite (split_field_then _ _ _ Hfield), (IH Hrest); [reflexivity | discriminate].
Qed.

Lemma joined_ids_not_star (ids : list Z) : Py.join "," (map Py.str ids) <> "*".
Proof.
  destruct ids as [|a [|b rest]].
  - discriminate.
  - apply str_not_star.
  - change (Py.join "," (map Py.str (a :: b :: rest)))
      with (Py.str a +:+ String "," (Py.join "," (map Py.str (b :: rest)))).
    destruct (str_head a) as (c & tail & E & Hc). rewrite E. simpl.
    intros [= Hc' _]. exact (Hc Hc').
Qed.

Lemma split_joined_ids (ids : list Z) (n : Z) :
  Py.str n ∈ Py.split "," (Py.join "," (map Py.str ids)) <-> n ∈ ids.
Proof.
  destruct ids as [|a rest].
  - simpl. split; [|intros H; inversion H].
    intros H. apply list_elem_of_singleton in H.
    destruct (str_head n) as (c & tail & Hn & _). congruence.
  - rewrite split_join; [| |discriminate].
    + rewrite list_elem_of_fmap. split.
      * intros (m & Hm & Hin). apply str_inj in Hm. congruence.
      * intros Hin. exists n. split; [reflexivity | exact Hin].
    + apply Forall_forall. intros field Hin.
      apply list_elem_of_In, in_map_iff in Hin.
      destruct Hin as (m & <- & _). apply str_no_comma.
Qed.

(** Configuring a list as the comma-joined decimal identifiers admits
    exactly those identifiers: a private message is allowed exactly when its
    sender is one of the listed users, and a group or supergroup message
    exactly when its chat is one of the listed chats. An empty list admits
    nobody. *)
Theorem is_allowed_joined_ids (ids : list Z) (other : string) (update : Update) :
  (chat_type update = PRIVATE ->
   is_allowed (mkConfig (Py.join "," (map Py.str ids)) other) update
   = bool_decide (from_user_id update ∈ ids))
  /\ (chat_type update = GROUP \/ chat_type update = SUPERGROUP ->
      is_allowed (mkConfig other (Py.join "," (map Py.str ids))) update
      = bool_decide (chat_id update ∈ ids)).
Proof.
  split; intros Hkind; rewrite is_allowed_unfold;
    cbn [allowed_user_ids allowed_chat_ids];
    rewrite (bool_decide_eq_false_2 _ (joined_ids_not_star ids)).
  - rewrite Hkind. cbn. rewrite !andb_false_r, andb_true_r. cbn.
    apply bool_decide_ext, split_joined_ids.
  - rewrite (bool_decide_ext _ _ (split_joined_ids ids (chat_id update))).
    destruct Hkind as [-> | ->]; cbn; rewrite !andb_false_r, ?andb_true_r, ?orb_false_r;
      cbn; reflexivity.
Qed.

Lemma is_allowed_joined_ids_witness :
  is_allowed (mkConfig (Py.join "," (map Py.str [12; 42])) "*")
    (mkUpdate 42 42 PRIVATE "hello" 1)
  = bool_decide (42 ∈ [12; 42])
  /\ is_allowed (mkConfig "*" (Py.join "," (map Py.str [-1001; -1002])))
       (mkUpdate 42 (-1003) SUPERGROUP "hello" 1)
     = bool_decide (-1003 ∈ [-1001; -1002]).
Proof.
  split.
  - destruct (is_allowed_joined_ids [12; 42] "*" (mkUpdate 42 42 PRIVATE "hello" 1))
      as [Hprivate _].
    apply Hprivate. reflexivity.
  - destruct (is_allowed_joined_ids [-1001; -1002] "*"
                (mkUpdate 42 (-1003) SUPERGROUP "hello" 1)) as [_ Hgroup].
    apply Hgroup. right. reflexivity.
Defined.

(** ** More on the continuity cache *)

Section CacheMore.

Variable env : Env.

Import ExpiringDict ExpiringDictFacts.

Lemma live_of_entry t user w v written :
  entry user w = Some (v, written) ->
  t - written <= ttl w ->
  live_at t user w = Some v.
Proof.
  unfold entry, live_at, live, ttl, expired. intros -> Hage.
  destruct (Z.ltb_spec (max_age_seconds (prev_conv_id_cache w)) (t - written));
    [lia | reflexivity].
Qed.

Lemma entry_of_live t user w v :
  live_at t user w = Some v -> exists written, entry user w = Some (v, written).
Proof.
  unfold entry, live_at, live.
  destruct (od_get user (items (prev_conv_id_cache w))) as [[v' written]|]; [|discriminate].
  destruct (expired _ _ _); [discriminate|]. intros [= <-]. eauto.
Qed.

(** The three ways a lookup can go. *)
Lemma get_prev_conv_id_cases user w :
  (exists v,
     live_at (clock_after env 0 w) user w = Some v
     /\ live_at (clock_after env 1 w) user w = Some v
     /\ get_prev_conv_id env user w
        = (inr v, mkWorld (prev_conv_id_cache w) (gpt3_bot w) (2 + clock_reads w)
                    (uuids_drawn w) (backend_calls w) (trace w)))
  \/ (exists v,
        live_at (clock_after env 0 w) user w = Some v
        /\ live_at (clock_after env 1 w) user w = None
        /\ get_prev_conv_id env user w
           = (inl (Py.KeyError (Py.str user)),
              mkWorld (with_items (prev_conv_id_cache w)
                         (od_del user (items (prev_conv_id_cache w))))
                      (gpt3_bot w) (2 + clock_reads w)
                      (uuids_drawn w) (backend_calls w) (trace w)))
  \/ (live_at (clock_after env 0 w) user w = None
      /\ get_prev_conv_id env user w
         = if expired (created env user w) (clock_after env 2 w) (clock_after env 1 w)
           then (inl (Py.KeyError (Py.str user)),
                 mkWorld (with_items (created env user w)
                            (od_del user (items (created env user w))))
                         (gpt3_bot w) (3 + clock_reads w)
                         (S (uuids_drawn w)) (backend_calls w) (trace w))
           else (inr (None, uuid4 env (uuids_drawn w)),
                 mkWorld (created env user w) (gpt3_bot w) (3 + clock_reads w)
                         (S (uuids_drawn w)) (backend_calls w) (trace w))).
Proof.
  destruct (live_at (clock_after env 0 w) user w) as [v|] eqn:H0.
  - destruct (live_at (clock_after env 1 w) user w) as [v'|] eqn:H1.
    + left. exists v. assert (v' = v) as ->.
      { destruct (entry_of_live _ _ _ _ H0) as (t0 & E0).
        destruct (entry_of_live _ _ _ _ H1) as (t1 & E1). congruence. }
      split; [reflexivity|]. split; [reflexivity|].
      apply get_prev_conv_id_existing; assumption.
    + right. left. exists v. split; [reflexivity|]. split; [reflexivity|].
      unfold live_at, clock_after in H0, H1. cbn [Nat.add] in H0, H1.
      unfold get_prev_conv_id, mbind, M_bind, cache_contains, now.
      rewrite (contains_live _ _ _ _ H0). cbn.
      unfold cache_getitem, now. cbn.
      rewrite (getitem_dead _ _ _ H1). reflexivity.
  - right. right. split; [reflexivity|]. apply get_prev_conv_id_absent, H0.
Qed.

(** If the pair of a user passes the membership test but has expired by
    the time it is read, one clock reading later, the lookup raises
    [KeyError], drops the pair and draws no token. *)
Theorem lookup_raises_when_pair_expires_between_reads (user : Z) (w : World)
    (v : ExpiringDict.Value) :
  live_at (clock_after env 0 w) user w = Some v ->
  live_at (clock_after env 1 w) user w = None ->
  fst (get_prev_conv_id env user w) = inl (Py.KeyError (Py.str user))
  /\ entry user (snd (get_prev_conv_id env user w)) = None
  /\ uuids_drawn (snd (get_prev_conv_id env user w)) = uuids_drawn w.
Proof.
  intros H0 H1.
  destruct (get_prev_conv_id_cases user w)
    as [(v' & _ & H1' & _) | [(v' & _ & _ & Hrun) | (H0' & _)]]; [congruence | | congruence].
  rewrite Hrun. cbn [fst snd]. split; [reflexivity|]. split; [|reflexivity].
  unfold entry. cbn [prev_conv_id_cache items with_items]. apply od_get_del_eq.
Qed.

(** A lookup that succeeded can be repeated: the stored pair of the user is
    then the returned one, and a second lookup whose two clock readings are
    within the time-to-live of its write returns the same pair, changes
    nothing in the cache and draws no token. *)
Theorem lookup_is_repeatable (user : Z) (w w1 : World) (v : ExpiringDict.Value) :
  get_prev_conv_id env user w = (inr v, w1) ->
  exists written,
    entry user w1 = Some (v, written)
    /\ (clock_after env 0 w1 - written <= ttl w1 ->
        clock_after env 1 w1 - written <= ttl w1 ->
        fst (get_prev_conv_id env user w1) = inr v
        /\ prev_conv_id_cache (snd (get_prev_conv_id env user w1)) = prev_conv_id_cache w1
        /\ uuids_drawn (snd (get_prev_conv_id env user w1)) = uuids_drawn w1).
Proof.
  intros Hrun.
  assert (Hentry : exists written, entry user w1 = Some (v, written)).
  { destruct (get_prev_conv_id_cases user w)
      as [(v' & H0 & _ & Hrun') | [(v' & _ & _ & Hrun') | (_ & Hrun')]];
      rewrite Hrun' in Hrun.
    - injection Hrun as -> <-. destruct (entry_of_live _ _ _ _ H0) as (t0 & E0).
      exists t0. exact E0.
    - discriminate.
    - destruct (expired _ _ _); [discriminate|]. injection Hrun as <- <-.
      eexists. unfold entry, created. cbn [prev_conv_id_cache].
      apply od_get_setitem_eq. }
  destruct Hentry as (written & Hentry). exists written. split; [exact Hentry|].
  intros A0 A1.
  rewrite (get_prev_conv_id_existing env user w1 v
             (live_of_entry _ _ _ _ _ Hentry A0) (live_of_entry _ _ _ _ _ Hentry A1)).
  repeat split.
Qed.

Lemma od_get_setitem_ne t k k' v d :
  k <> k' ->
  (length (items d) < max_len d)%nat ->
  od_get k' (items (setitem t k v d)) = od_get k' (items d).
Proof.
  intros Hne Hroom. rewrite setitem_items, od_get_app. unfold room.
  pose proof (length_od_del k (items d)) as Hlen.
  destruct (Nat.leb_spec (max_len d) (length (od_del k (items d)))); [lia|].
  rewrite (od_get_del_ne _ _ _ Hne). simpl.
  destruct (od_get k' (items d)); [reflexivity|].
  destruct (Z.eqb_spec k' k); [congruence | reflexivity].
Qed.

(** While the cache has room, a write or a lookup for one user leaves the
    stored pair of every other user, and its write time, as they were. *)
Theorem other_users_are_kept (user other : Z) (c : option string) (p : string)
    (w : World) :
  user <> other ->
  (length (items (prev_conv_id_cache w)) < max_len (prev_conv_id_cache w))%nat ->
  entry other (snd (set_prev_conv_id env user c p w)) = entry other w
  /\ entry other (snd (get_prev_conv_id env user w)) = entry other w.
Proof.
  intros Hne Hroom. split.
  - unfold entry, set_prev_conv_id, cache_setitem. cbn [snd prev_conv_id_cache set_cache].
    apply od_get_setitem_ne; assumption.
  - assert (Hcreated : od_get other (items (created env user w))
                       = od_get other (items (prev_conv_id_cache w))).
    { unfold created. rewrite od_get_setitem_ne; [| exact Hne |].
      - cbn [items with_items]. apply od_get_del_ne, Hne.
      - cbn [items with_items max_len].
        pose proof (length_od_del user (items (prev_conv_id_cache w))). lia. }
    destruct (get_prev_conv_id_cases user w)
      as [(v' & _ & _ & Hrun) | [(v' & _ & _ & Hrun) | (_ & Hrun)]];
      rewrite Hrun; unfold entry.
    + reflexivity.
    + cbn [snd prev_conv_id_cache items with_items]. apply od_get_del_ne, Hne.
    + destruct (expired _ _ _); cbn [snd prev_conv_id_cache items with_items].
      * rewrite (od_get_del_ne _ _ _ Hne). exact Hcreated.
      * exact Hcreated.
Qed.

End CacheMore.

Lemma lookup_raises_when_pair_expires_between_reads_witness :
  fst (get_prev_conv_id Demo.answering 42 (Demo.holding 1800))
  = inl (Py.KeyError (Py.str 42))
  /\ entry 42 (snd (get_prev_conv_id Demo.answering 42 (Demo.holding 1800))) = None
  /\ uuids_drawn (snd (get_prev_conv_id Demo.answering 42 (Demo.holding 1800))) = 0%nat.
Proof.
  apply (lookup_raises_when_pair_expires_between_reads Demo.answering 42
           (Demo.holding 1800) (Some "c0", "m0")); by_computation.
Defined.

Lemma lookup_is_repeatable_witness :
  fst (get_prev_conv_id Demo.answering 42
         (snd (get_prev_conv_id Demo.answering 42 Demo.start)))
  = inr (None, uuid4 Demo.answering 0).
Proof.
  destruct (lookup_is_repeatable Demo.answering 42 Demo.start
              (snd (get_prev_conv_id Demo.answering 42 Demo.start))
              (None, uuid4 Demo.answering 0)) as (written & Hentry & Hagain);
    [by_computation|].
  assert (Hwritten : written = 1).
  { vm_compute in Hentry. congruence. }
  subst written. apply Hagain; by_computation.
Defined.

Lemma other_users_are_kept_witness :
  entry 42 (snd (set_prev_conv_id Demo.answering 7 (Some "c1") "m1" (Demo.holding 10)))
  = entry 42 (Demo.holding 10)
  /\ entry 42 (snd (get_prev_conv_id Demo.answering 7 (Demo.holding 10)))
     = entry 42 (Demo.holding 10).
Proof.
  apply (other_users_are_kept Demo.answering 7 42 (Some "c1") "m1" (Demo.holding 10)).
  - discriminate.
  - vm_compute. lia.
Defined.

(** ** More on the relay and the handlers *)

Section RelayMore.

Variable env : Env.

Import ExpiringDict ExpiringDictFacts.

(** A lookup neither reads nor writes the trace. *)
Lemma get_prev_conv_id_emit e user w :
  get_prev_conv_id env user (emit e w)
  = (fst (get_prev_conv_id env user w), emit e (snd (get_prev_conv_id env user w))).
Proof.
  unfold get_prev_conv_id, mbind, M_bind, cache_contains, now.
  cbn [prev_conv_id_cache emit clock_reads].
  destruct (contains _ user (prev_conv_id_cache w)) as [present d1].
  destruct present; cbn [negb].
  - unfold cache_getitem, now, mret, M_ret.
    cbn [prev_conv_id_cache set_cache read_clock clock_reads emit].
    destruct (getitem _ user d1) as [[[c p]|] d2]; reflexivity.
  - unfold generate_uuid, cache_setitem, cache_getitem, now, mret, M_ret.
    cbn [prev_conv_id_cache set_cache read_clock draw_uuid clock_reads uuids_drawn emit].
    destruct (getitem _ user _) as [[[c p]|] d3]; reflexivity.
Qed.

Lemma lookup_keeps_counters user w r w1 :
  get_prev_conv_id env user w = (r, w1) ->
  backend_calls w1 = backend_calls w /\ trace w1 = trace w /\ ttl w1 = ttl w.
Proof.
  intros Hrun. pose proof (get_prev_conv_id_frame env user w) as Hframe.
  cbn zeta in Hframe. rewrite Hrun in Hframe. cbn [snd] in Hframe. tauto.
Qed.

(** An answer of the backend that lacks either continuity token counts as a
    failure: the relay returns the fallback, drops the answer, and leaves
    the cache as the lookup left it, although the request was made. *)
Theorem answer_without_tokens_is_failure (message : string) (user : Z)
    (w w1 : World) (c : option string) (p : string) (bot' : Chatbot)
    (response : Response) :
  get_prev_conv_id env user w = (inr (c, p), w1) ->
  get_chat_response_result env (backend_calls w) (mkChatbot c p) message
  = (bot', inr response) ->
  response !! "conversation_id" = None \/ response !! "parent_id" = None ->
  fst (get_chatgpt_response env message user w) = inr fallback_response
  /\ prev_conv_id_cache (snd (get_chatgpt_response env message user w))
     = prev_conv_id_cache w1
  /\ trace (snd (get_chatgpt_response env message user w))
     = BackendRequest message c p :: trace w.
Proof.
  intros Hget Hback Hmissing.
  destruct (lookup_keeps_counters _ _ _ _ Hget) as (Hcalls & Htrace & _).
  rewrite (relay_after_lookup env _ _ _ _ _ _ Hget). cbn zeta.
  rewrite Hcalls, Hback.
  destruct (response !! "conversation_id") as [new_c|] eqn:Ec.
  - destruct Hmissing as [Hm|Hm]; [discriminate|]. rewrite Hm.
    cbn. rewrite Htrace. repeat split.
  - cbn. rewrite Htrace. repeat split.
Qed.

(** Two exchanges in a row continue one conversation: once the relay has
    returned an answer carrying a conversation id [c] and a parent id [p],
    the cache holds [(c, p)] for the user, and the next message of that
    user, looked up within the time-to-live of that write, is sent to the
    backend with exactly [(c, p)]. *)
Theorem conversation_continues (first : string) (user : Z) (w w1 : World)
    (response : Response) (c p : string) :
  get_chatgpt_response env first user w = (inr response, w1) ->
  response !! "conversation_id" = Some c ->
  response !! "parent_id" = Some p ->
  exists written,
    entry user w1 = Some ((Some c, p), written)
    /\ forall next,
         clock_after env 0 w1 - written <= ttl w1 ->
         clock_after env 1 w1 - written <= ttl w1 ->
         trace (snd (get_chatgpt_response env next user w1))
         = BackendRequest next (Some c) p :: trace w1.
Proof.
  intros Hrun Hc Hp.
  assert (Hnot : forall w', (inr fallback_response, w') <> (inr response, w1) :> (Py.Exception + Response) * World).
  { intros w' [= Heq _]. rewrite <- Heq in Hc. vm_compute in Hc. discriminate. }
  assert (Hentry : exists written, entry user w1 = Some ((Some c, p), written)).
  { destruct (get_prev_conv_id env user w) as [[e|[c0 p0]] w0] eqn:Hget.
    - rewrite (relay_lookup_failed env _ _ _ _ _ Hget) in Hrun.
      exfalso. exact (Hnot _ Hrun).
    - rewrite (relay_after_lookup env _ _ _ _ _ _ Hget) in Hrun. cbn zeta in Hrun.
      destruct (get_chat_response_result _ _ _ _) as [bot' [e|answer]];
        [exfalso; exact (Hnot _ Hrun)|].
      destruct (answer !! "conversation_id") as [new_c|] eqn:Ec;
        [|exfalso; exact (Hnot _ Hrun)].
      destruct (answer !! "parent_id") as [new_p|] eqn:Ep;
        [|exfalso; exact (Hnot _ Hrun)].
      injection Hrun as -> <-.
      assert (new_c = c) as -> by congruence.
      assert (new_p = p) as -> by congruence.
      eexists. unfold entry, set_prev_conv_id, cache_setitem.
      cbn [snd prev_conv_id_cache set_cache]. apply od_get_setitem_eq. }
  destruct Hentry as (written & Hentry). exists written. split; [exact Hentry|].
  intros next A0 A1. apply relay_asks_with_live_pair.
  - exact (live_of_entry _ _ _ _ _ Hentry A0).
  - exact (live_of_entry _ _ _ _ _ Hentry A1).
Qed.

(** The relay makes at most one backend request per message. *)
Lemma relay_trace message user w :
  trace (snd (get_chatgpt_response env message user w)) = trace w
  \/ exists c p,
       trace (snd (get_chatgpt_response env message user w))
       = BackendRequest message c p :: trace w.
Proof.
  destruct (get_prev_conv_id env user w) as [[e|[c p]] w1] eqn:Hget;
    destruct (lookup_keeps_counters _ _ _ _ Hget) as (_ & Htrace & _).
  - left. rewrite (relay_lookup_failed env _ _ _ _ _ Hget). exact Htrace.
  - right. exists c, p.
    rewrite (relay_after_lookup env _ _ _ _ _ _ Hget). cbn zeta.
    destruct (get_chat_response_result _ _ _ _) as [bot' [e|answer]];
      [cbn; rewrite Htrace; reflexivity|].
    destruct (answer !! "conversation_id"); [|cbn; rewrite Htrace; reflexivity].
    destruct (answer !! "parent_id"); cbn; rewrite Htrace; reflexivity.
Qed.

End RelayMore.

Section PromptMore.

Variable env : Env.

(** What [prompt] does with an allowed update, in terms of the relay. *)
Lemma prompt_allowed config update w :
  is_allowed config update = true ->
  prompt env config update w
  = let started := emit (TypingStarted (chat_id update) 4) w in
    let relayed := get_chatgpt_response env (text update) (from_user_id update) started in
    match fst relayed with
    | inl e => (inl e, snd relayed)
    | inr response =>
        match response !! "message" with
        | Some body =>
            (inr tt,
             emit (SendMessage (chat_id update) (Some (message_id update)) body)
                  (emit TypingCancelled (snd relayed)))
        | None => (inl (Py.KeyError "message"), emit TypingCancelled (snd relayed))
        end
    end.
Proof.
  intros Hallowed. unfold prompt. rewrite Hallowed. cbn [negb].
  unfold mbind, M_bind. cbn zeta.
  destruct (get_chatgpt_response env (text update) (from_user_id update)
              (emit (TypingStarted (chat_id update) 4) w)) as [[e|response] w1];
    cbn [fst snd]; [reflexivity|].
  unfold dict_getitem. destruct (response !! "message"); reflexivity.
Qed.

Lemma fallback_has_message :
  fallback_response !! "message"
  = Some "I'm having some trouble talking to you, please try again later.".
Proof. reflexivity. Qed.

(** An allowed message whose backend call raises nothing from outside
    [Exception]: the typing task is started, at most one backend request is
    made, the typing task is cancelled, and then one message is sent as a
    reply, or [KeyError] is raised for an answer without message text. *)
Lemma prompt_trace_plain (config : Config) (update : Update) (w : World) :
  is_allowed config update = true ->
  exists requests,
    (requests = [] \/ exists c p, requests = [BackendRequest (text update) c p])
    /\ ((fst (prompt env config update w) = inl (Py.KeyError "message")
         /\ trace (snd (prompt env config update w))
            = TypingCancelled
              :: requests ++ TypingStarted (chat_id update) 4 :: trace w)
        \/ (exists body,
              fst (prompt env config update w) = inr tt
              /\ trace (snd (prompt env config update w))
                 = SendMessage (chat_id update) (Some (message_id update)) body
                   :: TypingCancelled
                   :: requests ++ TypingStarted (chat_id update) 4 :: trace w)).
Proof.
  intros Hallowed. rewrite (prompt_allowed _ _ _ Hallowed). cbn zeta.
  set (started := emit (TypingStarted (chat_id update) 4) w).
  destruct (relay_never_raises env (text update) (from_user_id update) started)
    as (response & w1 & Hrun).
  pose proof (relay_trace env (text update) (from_user_id update) started) as Htrace.
  rewrite Hrun in Htrace |- *. cbn [fst snd] in Htrace |- *.
  assert (Hreq : exists requests,
             (requests = [] \/ exists c p, requests = [BackendRequest (text update) c p])
             /\ trace w1 = (requests ++ TypingStarted (chat_id update) 4 :: trace w)%list).
  { destruct Htrace as [Ht | (c & p & Ht)].
    - exists []. split; [left; reflexivity | exact Ht].
    - exists [BackendRequest (text update) c p]. split; [right; eauto | exact Ht]. }
  destruct Hreq as (requests & Hshape & Hw1). exists requests. split; [exact Hshape|].
  destruct (response !! "message") as [body|]; cbn [fst snd emit trace].
  - right. exists body. rewrite Hw1. split; reflexivity.
  - left. rewrite Hw1. split; reflexivity.
Qed.

(** When the backend call raises an instance of [Exception], the handler
    sends the fallback text as a reply to the update, after the typing task
    has been cancelled, and the cache is as the lookup left it. *)
Lemma prompt_fallback_plain (config : Config) (update : Update)
    (w w1 : World) (c : option string) (p : string) (bot' : Chatbot)
    (e : Py.Exception) :
  is_allowed config update = true ->
  get_prev_conv_id env (from_user_id update) w = (inr (c, p), w1) ->
  get_chat_response_result env (backend_calls w) (mkChatbot c p) (text update)
  = (bot', inl e) ->
  fst (prompt env config update w) = inr tt
  /\ trace (snd (prompt env config update w))
     = SendMessage (chat_id update) (Some (message_id update))
         "I'm having some trouble talking to you, please try again later."
       :: TypingCancelled
       :: BackendRequest (text update) c p
       :: TypingStarted (chat_id update) 4
       :: trace w
  /\ prev_conv_id_cache (snd (prompt env config update w)) = prev_conv_id_cache w1.
Proof.
  intros Hallowed Hget Hback.
  destruct (lookup_keeps_counters env _ _ _ _ Hget) as (Hcalls & Htrace & _).
  pose proof (get_prev_conv_id_emit env (TypingStarted (chat_id update) 4)
                (from_user_id update) w) as Hemit.
  rewrite Hget in Hemit. cbn [fst snd] in Hemit.
  rewrite (prompt_allowed _ _ _ Hallowed). cbn zeta.
  rewrite (relay_after_lookup env _ _ _ _ _ _ Hemit). cbn zeta.
  cbn [backend_calls emit]. rewrite Hcalls, Hback.
  cbn [fst snd]. rewrite fallback_has_message.
  cbn [fst snd emit trace set_bot count_call prev_conv_id_cache].
  rewrite Htrace. repeat split.
Qed.

(** When the backend answers with both continuity tokens but without a
    message text, the handler raises [KeyError] after cancelling the typing
    task: nothing is sent to the user, yet the cache has already been
    written with the new tokens. *)
Theorem prompt_raises_without_message (config : Config) (update : Update)
    (w w1 : World) (c : option string) (p : string) (bot' : Chatbot)
    (response : Response) (new_c new_p : string) :
  is_allowed config update = true ->
  get_prev_conv_id env (from_user_id update) w = (inr (c, p), w1) ->
  get_chat_response_result env (backend_calls w) (mkChatbot c p) (text update)
  = (bot', inr response) ->
  response !! "conversation_id" = Some new_c ->
  response !! "parent_id" = Some new_p ->
  response !! "message" = None ->
  fst (prompt env config update w) = inl (Py.KeyError "message")
  /\ trace (snd (prompt env config update w))
     = TypingCancelled
       :: BackendRequest (text update) c p
       :: TypingStarted (chat_id update) 4
       :: trace w
  /\ entry (from_user_id update) (snd (prompt env config update w))
     = Some ((Some new_c, new_p), clock_after env 0 w1).
Proof.
  intros Hallowed Hget Hback Hc Hp Hmessage.
  destruct (lookup_keeps_counters env _ _ _ _ Hget) as (Hcalls & Htrace & _).
  pose proof (get_prev_conv_id_emit env (TypingStarted (chat_id update) 4)
                (from_user_id update) w) as Hemit.
  rewrite Hget in Hemit. cbn [fst snd] in Hemit.
  rewrite (prompt_allowed _ _ _ Hallowed). cbn zeta.
  rewrite (relay_after_lookup env _ _ _ _ _ _ Hemit). cbn zeta.
  cbn [backend_calls emit]. rewrite Hcalls, Hback, Hc, Hp.
  cbn [fst snd]. rewrite Hmessage. cbn [fst snd].
  split; [reflexivity|]. split.
  - cbn. rewrite Htrace. reflexivity.
  - unfold entry, set_prev_conv_id, cache_setitem.
    cbn [snd prev_conv_id_cache set_cache emit].
    apply ExpiringDictFacts.od_get_setitem_eq.
Qed.

(** A refused update gets the refusal and nothing else, from each of the
    three gated handlers: the world afterwards is the world before with the
    one refusal message sent to the chat of the update. The cache is not
    accessed, no token is drawn, the backend is neither asked nor reset. *)
Theorem refused_update_only_gets_refusal (config : Config) (update : Update)
    (w : World) :
  is_allowed config update = false ->
  let refused :=
    (inr tt, emit (SendMessage (chat_id update) None disallowed_message) w) in
  prompt env config update w = refused
  /\ reset env config update w = refused
  /\ start config update w = refused.
Proof.
  intros Hdenied. unfold prompt, reset, start. rewrite Hdenied.
  repeat split.
Qed.

End PromptMore.

Lemma answer_without_tokens_is_failure_witness :
  fst (get_chatgpt_response (Demo.env (inr {[ "message" := "hi!" ]})) "hello" 42 Demo.start)
  = inr fallback_response.
Proof.
  eapply (answer_without_tokens_is_failure (Demo.env (inr {[ "message" := "hi!" ]}))
            "hello" 42 Demo.start).
  - by_computation.
  - by_computation.
  - left. by_computation.
Defined.

Lemma conversation_continues_witness :
  trace (snd (get_chatgpt_response Demo.answering "and then?" 42
                (snd (get_chatgpt_response Demo.answering "hello" 42 Demo.start))))
  = BackendRequest "and then?" (Some "c1") "m1"
    :: trace (snd (get_chatgpt_response Demo.answering "hello" 42 Demo.start)).
Proof.
  destruct (conversation_continues Demo.answering "hello" 42 Demo.start
              (snd (get_chatgpt_response Demo.answering "hello" 42 Demo.start))
              Demo.answer "c1" "m1") as (written & Hentry & Hnext);
    [by_computation ..|].
  assert (Hwritten : written = 3).
  { vm_compute in Hentry. congruence. }
  subst written. apply Hnext; by_computation.
Defined.

Lemma prompt_raises_without_message_witness :
  fst (prompt (Demo.env (inr {[ "conversation_id" := "c1"; "parent_id" := "m1" ]}))
         (mkConfig "42" "") Demo.private_hello Demo.start)
  = inl (Py.KeyError "message").
Proof.
  eapply (prompt_raises_without_message
            (Demo.env (inr {[ "conversation_id" := "c1"; "parent_id" := "m1" ]}))
            (mkConfig "42" "") Demo.private_hello Demo.start).
  - by_computation.
  - by_computation.
  - by_computation.
  - by_computation.
  - by_computation.
  - by_computation.
Defined.

Lemma refused_update_only_gets_refusal_witness :
  prompt Demo.answering (mkConfig "12" "") Demo.private_hello Demo.start
  = (inr tt, emit (SendMessage 42 None disallowed_message) Demo.start).
Proof.
  apply (refused_update_only_gets_refusal Demo.answering (mkConfig "12" "")
           Demo.private_hello Demo.start).
  by_computation.
Defined.

(** ** More on the translation plugin *)

Module DeeplFacts.
Import DeeplTranslatePlugin.

Lemma truthy_spec (v : option string) :
  truthy v = true <-> exists s, v = Some s /\ s <> "".
Proof.
  unfold truthy. destruct v as [s|].
  - destruct (bool_decide (s = "")) eqn:E; cbn.
    + apply bool_decide_eq_true in E. split; [discriminate|].
      intros (s' & [= <-] & Hne). contradiction.
    + apply bool_decide_eq_false in E. split; [eauto | reflexivity].
  - split; [discriminate | intros (s & H & _); discriminate].
Qed.

Lemma init_inr_iff (environ : gmap string string) (self : t) :
  init environ = inr self
  <-> exists key flag,
        environ !! "DEEPL_API_KEY" = Some key /\ key <> ""
        /\ environ !! "DEEPL_API_PRO" = Some flag /\ Py.lower flag = "true"
        /\ self = mk key true.
Proof.
  unfold init.
  pose proof (truthy_spec (environ !! "DEEPL_API_KEY")) as Hkey.
  destruct (truthy (environ !! "DEEPL_API_KEY")).
  - destruct (proj1 Hkey eq_refl) as (key & Ekey & Hne). rewrite Ekey.
    destruct (environ !! "DEEPL_API_PRO") as [flag|] eqn:Eflag;
      cbn [default from_option id negb orb].
    + destruct (bool_decide (Py.lower flag = "true")) eqn:Epro; cbn [negb].
      * apply bool_decide_eq_true in Epro. split.
         -- intros [= Hself]. subst self. exists key, flag.
            repeat split; assumption.
         -- intros (key' & flag' & Hkey' & _ & _ & _ & Hself).
            assert (key' = key) by congruence. subst. reflexivity.
      * apply bool_decide_eq_false in Epro. split; [discriminate|].
         intros (key' & flag' & _ & _ & Hflag & Hlow & _).
         assert (flag' = flag) by congruence. subst. contradiction.
    + split; [discriminate|].
      intros (key' & flag' & _ & _ & Hflag & _). discriminate.
  - cbn [negb orb]. split; [discriminate|].
    intros (key & flag & Ekey & Hne & _).
    assert (false = true) by (apply Hkey; eauto). discriminate.
Qed.

End DeeplFacts.

(** The constructor succeeds exactly when [DEEPL_API_KEY] is set to a
    non-empty string and [DEEPL_API_PRO] is set to a string that
    lower-cases to [true]; the plugin built then carries that key and the
    paid tier. In every other environment it raises the configuration
    error. *)
Theorem deepl_init_succeeds_iff (environ : gmap string string) :
  (forall self,
     DeeplTranslatePlugin.init environ = inr self
     <-> exists key flag,
           environ !! "DEEPL_API_KEY" = Some key /\ key <> ""
           /\ environ !! "DEEPL_API_PRO" = Some flag /\ Py.lower flag = "true"
           /\ self = DeeplTranslatePlugin.mk key true)
  /\ (forall e,
        DeeplTranslatePlugin.init environ = inl e ->
        e = Py.ValueError
              "DEEPL_API_KEY and DEEPL_API_PLAN environment variable must be set to use DeepL Plugin").
Proof.
  split.
  - intros self. apply DeeplFacts.init_inr_iff.
  - intros e. unfold DeeplTranslatePlugin.init.
    destruct (negb _ || negb _); [intros [= <-]; reflexivity | discriminate].
Qed.

(** [execute] builds its request exactly when the keyword arguments hold
    every parameter that [get_spec] declares as required; otherwise it
    raises [KeyError] for a required parameter that is missing. *)
Theorem deepl_execute_needs_required (self : DeeplTranslatePlugin.t)
    (kwargs : gmap string string) :
  let required_names :=
    concat (map DeeplTranslatePlugin.required DeeplTranslatePlugin.get_spec) in
  ((exists request, DeeplTranslatePlugin.execute self kwargs = inr request)
   <-> Forall (fun name => is_Some (kwargs !! name)) required_names)
  /\ (forall e,
        DeeplTranslatePlugin.execute self kwargs = inl e ->
        exists name,
          e = Py.KeyError name /\ name ∈ required_names /\ kwargs !! name = None).
Proof.
  cbn zeta. unfold DeeplTranslatePlugin.execute. cbn [concat map
    DeeplTranslatePlugin.get_spec DeeplTranslatePlugin.required app].
  destruct (kwargs !! "text") as [text|] eqn:Etext;
    [destruct (kwargs !! "to_language") as [lang|] eqn:Elang|].
  - split; [|discriminate]. split; [|eauto].
    intros _. repeat constructor; rewrite ?Etext, ?Elang; eauto.
  - split.
    + split; [intros (request & H); discriminate|].
      intros H. inversion H as [|? ? _ H']; subst.
      inversion H' as [|? ? Hlang _]; subst. rewrite Elang in Hlang.
      destruct Hlang as (x & Hx). discriminate.
    + intros e [= <-]. exists "to_language". split; [reflexivity|].
      split; [|exact Elang]. apply list_elem_of_In. cbn. tauto.
  - split.
    + split; [intros (request & H); discriminate|].
      intros H. inversion H as [|? ? Htext _]; subst. rewrite Etext in Htext.
      destruct Htext as (x & Hx). discriminate.
    + intros e [= <-]. exists "text". split; [reflexivity|].
      split; [|exact Etext]. apply list_elem_of_In. cbn. tauto.
Qed.

(** A plugin built from the environment sends the configured key: with both
    arguments present, the request goes to the paid endpoint, carries the
    environment's [DEEPL_API_KEY] in its authorization header, and its form
    data are the text and the target language. *)
Theorem deepl_request_of_configured_plugin (environ kwargs : gmap string string)
    (self : DeeplTranslatePlugin.t) (body lang : string) :
  DeeplTranslatePlugin.init environ = inr self ->
  kwargs !! "text" = Some body ->
  kwargs !! "to_language" = Some lang ->
  exists key,
    environ !! "DEEPL_API_KEY" = Some key
    /\ DeeplTranslatePlugin.execute self kwargs
       = inr (DeeplTranslatePlugin.mkRequest "https://api.deepl.com/v2/translate"
                [("Authorization", "DeepL-Auth-Key " +:+ key);
                 ("User-Agent", "chatgpt-telegram-bot/0.2.7");
                 ("Content-Type", "application/x-www-form-urlencoded")]
                [("text", body); ("target_lang", lang)]).
Proof.
  intros Hinit Hbody Hlang.
  destruct (proj1 (DeeplFacts.init_inr_iff environ self) Hinit)
    as (key & flag & Ekey & _ & _ & _ & ->).
  exists key. split; [exact Ekey|].
  unfold DeeplTranslatePlugin.execute. rewrite Hbody, Hlang. reflexivity.
Qed.

(** [execute] to its end: an exception raised by the HTTP call or by the
    decoding of the body propagates unchanged; a body whose [translations]
    list starts with an object holding [text] gives that text; a body
    without [translations] raises [KeyError], and an empty [translations]
    list raises [IndexError]. *)
Theorem deepl_reads_first_translation
    (post : DeeplTranslatePlugin.Request -> Py.Exception + DeeplTranslatePlugin.Json)
    (self : DeeplTranslatePlugin.t) (kwargs : gmap string string)
    (request : DeeplTranslatePlugin.Request) :
  DeeplTranslatePlugin.execute self kwargs = inr request ->
  (forall e,
     post request = inl e ->
     DeeplTranslatePlugin.execute_and_read post self kwargs = inl e)
  /\ (forall members first rest translated,
        post request = inr (DeeplTranslatePlugin.JObject members) ->
        members !! "translations"
        = Some (DeeplTranslatePlugin.JArray (DeeplTranslatePlugin.JObject first :: rest)) ->
        first !! "text" = Some translated ->
        DeeplTranslatePlugin.execute_and_read post self kwargs = inr translated)
  /\ (forall members,
        post request = inr (DeeplTranslatePlugin.JObject members) ->
        members !! "translations" = None ->
        DeeplTranslatePlugin.execute_and_read post self kwargs
        = inl (Py.KeyError "translations"))
  /\ (forall members,
        post request = inr (DeeplTranslatePlugin.JObject members) ->
        members !! "translations" = Some (DeeplTranslatePlugin.JArray []) ->
        DeeplTranslatePlugin.execute_and_read post self kwargs
        = inl (Py.OtherException "IndexError" "list index out of range")).
Proof.
  intros Hreq. unfold DeeplTranslatePlugin.execute_and_read. rewrite Hreq.
  repeat split.
  - intros e ->. reflexivity.
  - intros members first rest translated -> Hlist Htext.
    cbn [DeeplTranslatePlugin.subscript_key]. rewrite Hlist.
    cbn [DeeplTranslatePlugin.subscript_first DeeplTranslatePlugin.subscript_key].
    rewrite Htext. reflexivity.
  - intros members -> Hnone. cbn [DeeplTranslatePlugin.subscript_key].
    rewrite Hnone. reflexivity.
  - intros members -> Hempty. cbn [DeeplTranslatePlugin.subscript_key].
    rewrite Hempty. reflexivity.
Qed.

Lemma deepl_init_succeeds_iff_witness :
  DeeplTranslatePlugin.init {[ "DEEPL_API_KEY" := "secret"; "DEEPL_API_PRO" := "TRUE" ]}
  = inr (DeeplTranslatePlugin.mk "secret" true).
Proof.
  destruct (deepl_init_succeeds_iff
              {[ "DEEPL_API_KEY" := "secret"; "DEEPL_API_PRO" := "TRUE" ]}) as [Hiff _].
  apply Hiff. exists "secret", "TRUE". repeat split; by_computation.
Defined.

Lemma deepl_execute_needs_required_witness :
  exists request,
    DeeplTranslatePlugin.execute (DeeplTranslatePlugin.mk "secret" true)
      {[ "text" := "ciao"; "to_language" := "en" ]} = inr request.
Proof.
  destruct (deepl_execute_needs_required (DeeplTranslatePlugin.mk "secret" true)
              {[ "text" := "ciao"; "to_language" := "en" ]}) as [Hiff _].
  apply Hiff. cbn [concat map DeeplTranslatePlugin.get_spec
    DeeplTranslatePlugin.required app].
  constructor; [eexists; by_computation|].
  constructor; [eexists; by_computation|].
  constructor.
Defined.

Lemma deepl_request_of_configured_plugin_witness :
  exists key,
    ({[ "DEEPL_API_KEY" := "secret"; "DEEPL_API_PRO" := "true" ]} : gmap string string)
      !! "DEEPL_API_KEY" = Some key
    /\ DeeplTranslatePlugin.execute (DeeplTranslatePlugin.mk "secret" true)
         {[ "text" := "ciao"; "to_language" := "en" ]}
       = inr (DeeplTranslatePlugin.mkRequest "https://api.deepl.com/v2/translate"
                [("Authorization", "DeepL-Auth-Key " +:+ key);
                 ("User-Agent", "chatgpt-telegram-bot/0.2.7");
                 ("Content-Type", "application/x-www-form-urlencoded")]
                [("text", "ciao"); ("target_lang", "en")]).
Proof.
  apply (deepl_request_of_configured_plugin
           {[ "DEEPL_API_KEY" := "secret"; "DEEPL_API_PRO" := "true" ]}
           {[ "text" := "ciao"; "to_language" := "en" ]}
           (DeeplTranslatePlugin.mk "secret" true) "ciao" "en"); by_computation.
Defined.

Lemma deepl_reads_first_translation_witness :
  DeeplTranslatePlugin.execute_and_read
    (fun _ => inr (DeeplTranslatePlugin.JObject
                     {[ "translations" :=
                          DeeplTranslatePlugin.JArray
                            [DeeplTranslatePlugin.JObject
                               {[ "text" := DeeplTranslatePlugin.JString "hello" ]}] ]}))
    (DeeplTranslatePlugin.mk "secret" true)
    {[ "text" := "ciao"; "to_language" := "en" ]}
  = inr (DeeplTranslatePlugin.JString "hello").
Proof.
  destruct (deepl_reads_first_translation
              (fun _ => inr (DeeplTranslatePlugin.JObject
                     {[ "translations" :=
                          DeeplTranslatePlugin.JArray
                            [DeeplTranslatePlugin.JObject
                               {[ "text" := DeeplTranslatePlugin.JString "hello" ]}] ]}))
              (DeeplTranslatePlugin.mk "secret" true)
              {[ "text" := "ciao"; "to_language" := "en" ]}
              (DeeplTranslatePlugin.mkRequest "https://api.deepl.com/v2/translate"
                [("Authorization", "DeepL-Auth-Key secret");
                 ("User-Agent", "chatgpt-telegram-bot/0.2.7");
                 ("Content-Type", "application/x-www-form-urlencoded")]
                [("text", "ciao"); ("target_lang", "en")]))
    as (_ & Hfirst & _); [by_computation|].
  eapply Hfirst; by_computation.
Defined.

(** ** Exceptions from outside [Exception] at the backend call *)

Section Interrupted.

Variable interrupt : nat -> option Py.SystemExiting.

Variable env : Env.

Lemma lift_result {A : Type} (m : M A) (w : World) :
  fst (Interruptible.lift m w)
  = match fst (m w) with
    | inl e => inl (Py.Instance e)
    | inr x => inr x
    end
  /\ snd (Interruptible.lift m w) = snd (m w).
Proof.
  unfold Interruptible.lift. destruct (m w) as [[e|x] w']; split; reflexivity.
Qed.

(** A lookup that raised is turned into the fallback, interruptions or not:
    the backend is not reached. *)
Lemma interruptible_lookup_failed message user w e w1 :
  get_prev_conv_id env user w = (inl e, w1) ->
  Interruptible.get_chatgpt_response interrupt env message user w
  = (inr fallback_response, w1).
Proof.
  intros Hget.
  unfold Interruptible.get_chatgpt_response, Interruptible.try_except_Exception,
    mbind, Interruptible.Task_bind, Interruptible.lift.
  rewrite Hget. reflexivity.
Qed.

(** An interrupted backend call ends the relay with the interrupting
    exception, after the request was made with the pair that was read. *)
Lemma relay_interrupted message user w c p w1 b :
  get_prev_conv_id env user w = (inr (c, p), w1) ->
  interrupt (backend_calls w) = Some b ->
  Interruptible.get_chatgpt_response interrupt env message user w
  = (inl (Py.Outside b),
     count_call (emit (BackendRequest message c p) (set_bot (mkChatbot c p) w1))).
Proof.
  intros Hget Hint.
  destruct (lookup_keeps_counters env _ _ _ _ Hget) as (Hcalls & _ & _).
  unfold Interruptible.get_chatgpt_response, Interruptible.try_except_Exception,
    mbind, Interruptible.Task_bind, Interruptible.lift.
  rewrite Hget. cbn.
  unfold Interruptible.await_get_chat_response. cbn [backend_calls set_bot].
  rewrite Hcalls, Hint. reflexivity.
Qed.

(** When the backend call is not interrupted, the relay is the plain one. *)
Lemma relay_undisturbed message user w :
  interrupt (backend_calls w) = None ->
  Interruptible.get_chatgpt_response interrupt env message user w
  = Interruptible.lift (get_chatgpt_response env message user) w.
Proof.
  intros Hnone.
  destruct (get_prev_conv_id env user w) as [[e|[c p]] w1] eqn:Hget.
  - rewrite (interruptible_lookup_failed _ _ _ _ _ Hget).
    unfold Interruptible.lift.
    rewrite (relay_lookup_failed env _ _ _ _ _ Hget). reflexivity.
  - destruct (lookup_keeps_counters env _ _ _ _ Hget) as (Hcalls & _ & _).
    unfold Interruptible.lift at 1.
    rewrite (relay_after_lookup env _ _ _ _ _ _ Hget). cbn zeta.
    unfold Interruptible.get_chatgpt_response, Interruptible.try_except_Exception,
      mbind, Interruptible.Task_bind, Interruptible.lift.
    rewrite Hget. cbn.
    unfold Interruptible.await_get_chat_response. cbn [backend_calls set_bot].
    rewrite Hcalls, Hnone.
    unfold Interruptible.lift, get_chat_response. cbn [gpt3_bot set_bot backend_calls
      conversation_id parent_id]. rewrite ?Hcalls.
    destruct (get_chat_response_result env (backend_calls w) (mkChatbot c p) message)
      as [bot' [e|response]]; [reflexivity|].
    unfold dict_getitem.
    destruct (response !! "conversation_id"); [|reflexivity].
    cbn. destruct (response !! "parent_id"); reflexivity.
Qed.

Lemma prompt_undisturbed config update w :
  interrupt (backend_calls w) = None ->
  Interruptible.prompt interrupt env config update w
  = Interruptible.lift (prompt env config update) w.
Proof.
  intros Hnone. unfold Interruptible.prompt, prompt.
  destruct (is_allowed config update); cbn [negb]; [|reflexivity].
  unfold mbind at 1 2. unfold Interruptible.Task_bind at 1 2.
  unfold Interruptible.lift at 1. cbn [fst snd].
  rewrite (relay_undisturbed (text update) (from_user_id update)
             (emit (TypingStarted (chat_id update) 4) w) Hnone).
  unfold Interruptible.lift, mbind, M_bind, Interruptible.Task_bind.
  destruct (get_chatgpt_response env (text update) (from_user_id update)
              (emit (TypingStarted (chat_id update) 4) w)) as [[e|response] w1];
    [reflexivity|].
  unfold dict_getitem. destruct (response !! "message"); reflexivity.
Qed.

Lemma prompt_interrupted config update w c p w1 b :
  is_allowed config update = true ->
  get_prev_conv_id env (from_user_id update) w = (inr (c, p), w1) ->
  interrupt (backend_calls w) = Some b ->
  Interruptible.prompt interrupt env config update w
  = (inl (Py.Outside b),
     count_call
       (emit (BackendRequest (text update) c p)
          (set_bot (mkChatbot c p) (emit (TypingStarted (chat_id update) 4) w1)))).
Proof.
  intros Hallowed Hget Hint.
  pose proof (get_prev_conv_id_emit env (TypingStarted (chat_id update) 4)
                (from_user_id update) w) as Hemit.
  rewrite Hget in Hemit. cbn [fst snd] in Hemit.
  unfold Interruptible.prompt. rewrite Hallowed. cbn [negb].
  unfold mbind at 1 2. unfold Interruptible.Task_bind at 1 2.
  unfold Interruptible.lift at 1. cbn [fst snd].
  rewrite (relay_interrupted _ _ _ _ _ _ _ Hemit Hint). reflexivity.
Qed.

End Interrupted.

(** C2 (amended). Whatever the message, when the backend call raises an
    exception that is an instance of [Exception], [get_chatgpt_response]
    catches it and returns the fixed fallback message. The relay raises
    only when the awaited backend call ends with an exception from outside
    [Exception] (a cancellation, a keyboard interrupt, an exit), and such
    an exception does propagate to the caller: the clause is
    [except Exception]. *)
Theorem relay_catches_exception_instances
    (interrupt : nat -> option Py.SystemExiting) (env : Env) (message : string)
    (user : Z) (w : World) :
  (forall c p w1 e,
     get_prev_conv_id env user w = (inr (c, p), w1) ->
     interrupt (backend_calls w) = None ->
     snd (get_chat_response_result env (backend_calls w) (mkChatbot c p) message)
     = inl e ->
     fst (Interruptible.get_chatgpt_response interrupt env message user w)
     = inr fallback_response)
  /\ (forall raised,
        fst (Interruptible.get_chatgpt_response interrupt env message user w)
        = inl raised ->
        exists b c p w1,
          raised = Py.Outside b
          /\ interrupt (backend_calls w) = Some b
          /\ get_prev_conv_id env user w = (inr (c, p), w1))
  /\ (forall c p w1 b,
        get_prev_conv_id env user w = (inr (c, p), w1) ->
        interrupt (backend_calls w) = Some b ->
        fst (Interruptible.get_chatgpt_response interrupt env message user w)
        = inl (Py.Outside b))
  /\ fallback_response
     = {[ "message" := "I'm having some trouble talking to you, please try again later." ]}.
Proof.
  split; [|split; [|split; [|reflexivity]]].
  - intros c p w1 e Hget Hnone Hraise.
    rewrite (relay_undisturbed interrupt env _ _ _ Hnone).
    destruct (lift_result (get_chatgpt_response env message user) w) as [-> _].
    rewrite (relay_after_lookup env _ _ _ _ _ _ Hget). cbn zeta.
    destruct (lookup_keeps_counters env _ _ _ _ Hget) as (Hcalls & _ & _).
    rewrite Hcalls.
    destruct (get_chat_response_result env (backend_calls w) (mkChatbot c p) message)
      as [bot' outcome].
    cbn [snd] in Hraise. subst outcome. reflexivity.
  - intros raised Hraised.
    destruct (interrupt (backend_calls w)) as [b|] eqn:Hint.
    + destruct (get_prev_conv_id env user w) as [[e|[c p]] w1] eqn:Hget.
      * rewrite (interruptible_lookup_failed interrupt env _ _ _ _ _ Hget) in Hraised.
        discriminate.
      * rewrite (relay_interrupted interrupt env _ _ _ _ _ _ _ Hget Hint) in Hraised.
        injection Hraised as <-. exists b, c, p, w1. repeat split.
    + rewrite (relay_undisturbed interrupt env _ _ _ Hint) in Hraised.
      destruct (lift_result (get_chatgpt_response env message user) w) as [Hfst _].
      rewrite Hfst in Hraised.
      destruct (relay_never_raises env message user w) as (response & w' & Hrun).
      rewrite Hrun in Hraised. discriminate.
  - intros c p w1 b Hget Hint.
    rewrite (relay_interrupted interrupt env _ _ _ _ _ _ _ Hget Hint). reflexivity.
Qed.

(** The claim as first stated fails: a backend call that is cancelled, or
    that exits the interpreter, makes the relay raise instead of returning
    the fallback. *)
Lemma backend_cancellation_propagates :
  fst (Interruptible.get_chatgpt_response Demo.cancelled Demo.answering
         "hello" 42 Demo.start)
  = inl (Py.Outside Py.CancelledError)
  /\ fst (Interruptible.get_chatgpt_response Demo.exiting Demo.answering
            "hello" 42 Demo.start)
     = inl (Py.Outside (Py.SystemExit 1))
  /\ ~ (forall interrupt env message user w b,
          interrupt (backend_calls w) = Some b ->
          fst (Interruptible.get_chatgpt_response interrupt env message user w)
          = inr fallback_response).
Proof.
  split; [by_computation|]. split; [by_computation|].
  intros Hclaim.
  specialize (Hclaim Demo.cancelled Demo.answering "hello" 42 Demo.start
                Py.CancelledError eq_refl).
  vm_compute in Hclaim. discriminate.
Qed.

Lemma relay_catches_exception_instances_witness :
  fst (Interruptible.get_chatgpt_response Demo.undisturbed Demo.failing
         "hello" 42 Demo.start)
  = inr fallback_response
  /\ fst (Interruptible.get_chatgpt_response Demo.cancelled Demo.failing
            "hello" 42 Demo.start)
     = inl (Py.Outside Py.CancelledError)
  /\ exists b c p w1,
       Py.Outside Py.CancelledError = Py.Outside b
       /\ Demo.cancelled (backend_calls Demo.start) = Some b
       /\ get_prev_conv_id Demo.failing 42 Demo.start = (inr (c, p), w1).
Proof.
  split; [|split].
  - destruct (relay_catches_exception_instances Demo.undisturbed Demo.failing
                "hello" 42 Demo.start) as (Hcaught & _).
    eapply Hcaught; by_computation.
  - destruct (relay_catches_exception_instances Demo.cancelled Demo.failing
                "hello" 42 Demo.start) as (_ & _ & Hthrough & _).
    eapply Hthrough; by_computation.
  - destruct (relay_catches_exception_instances Demo.cancelled Demo.failing
                "hello" 42 Demo.start) as (_ & Honly & _).
    apply Honly. by_computation.
Defined.

(** An allowed message and the typing task. When the awaited backend call
    is not interrupted from outside [Exception], the handler starts the
    typing task, makes at most one backend request (with the text of the
    update), cancels the typing task, and then sends one message as a reply
    to the update, or raises [KeyError] for an answer without message text,
    having sent nothing. When the call is interrupted, the handler
    propagates the interruption right after the request: nothing is sent
    and the typing task is not cancelled. *)
Theorem prompt_cancels_typing (interrupt : nat -> option Py.SystemExiting)
    (env : Env) (config : Config) (update : Update) (w : World) :
  is_allowed config update = true ->
  (interrupt (backend_calls w) = None ->
   exists requests,
     (requests = [] \/ exists c p, requests = [BackendRequest (text update) c p])
     /\ ((fst (Interruptible.prompt interrupt env config update w)
          = inl (Py.Instance (Py.KeyError "message"))
          /\ trace (snd (Interruptible.prompt interrupt env config update w))
             = TypingCancelled
               :: requests ++ TypingStarted (chat_id update) 4 :: trace w)
         \/ (exists body,
               fst (Interruptible.prompt interrupt env config update w) = inr tt
               /\ trace (snd (Interruptible.prompt interrupt env config update w))
                  = SendMessage (chat_id update) (Some (message_id update)) body
                    :: TypingCancelled
                    :: requests ++ TypingStarted (chat_id update) 4 :: trace w)))
  /\ (forall b c p w1,
        interrupt (backend_calls w) = Some b ->
        get_prev_conv_id env (from_user_id update) w = (inr (c, p), w1) ->
        fst (Interruptible.prompt interrupt env config update w)
        = inl (Py.Outside b)
        /\ trace (snd (Interruptible.prompt interrupt env config update w))
           = BackendRequest (text update) c p
             :: TypingStarted (chat_id update) 4 :: trace w).
Proof.
  intros Hallowed. split.
  - intros Hnone.
    rewrite (prompt_undisturbed interrupt env _ _ _ Hnone).
    destruct (lift_result (prompt env config update) w) as [-> ->].
    destruct (prompt_trace_plain env config update w Hallowed)
      as (requests & Hshape & [[Hfst Htrace] | (body & Hfst & Htrace)]);
      exists requests; (split; [exact Hshape|]).
    + left. rewrite Hfst. split; [reflexivity | exact Htrace].
    + right. exists body. rewrite Hfst. split; [reflexivity | exact Htrace].
  - intros b c p w1 Hint Hget.
    destruct (lookup_keeps_counters env _ _ _ _ Hget) as (_ & Htrace & _).
    rewrite (prompt_interrupted interrupt env _ _ _ _ _ _ _ Hallowed Hget Hint).
    cbn. rewrite Htrace. split; reflexivity.
Qed.

(** When the backend call raises an instance of [Exception] for an allowed
    message (and is not interrupted from outside [Exception]), the user is
    answered: the handler returns normally, having sent the fallback text
    as a reply to the update after the typing task was cancelled, and the
    cache is as the lookup left it. *)
Theorem prompt_replies_with_fallback (interrupt : nat -> option Py.SystemExiting)
    (env : Env) (config : Config) (update : Update) (w w1 : World)
    (c : option string) (p : string) (bot' : Chatbot) (e : Py.Exception) :
  is_allowed config update = true ->
  get_prev_conv_id env (from_user_id update) w = (inr (c, p), w1) ->
  interrupt (backend_calls w) = None ->
  get_chat_response_result env (backend_calls w) (mkChatbot c p) (text update)
  = (bot', inl e) ->
  fst (Interruptible.prompt interrupt env config update w) = inr tt
  /\ trace (snd (Interruptible.prompt interrupt env config update w))
     = SendMessage (chat_id update) (Some (message_id update))
         "I'm having some trouble talking to you, please try again later."
       :: TypingCancelled
       :: BackendRequest (text update) c p
       :: TypingStarted (chat_id update) 4
       :: trace w
  /\ prev_conv_id_cache (snd (Interruptible.prompt interrupt env config update w))
     = prev_conv_id_cache w1.
Proof.
  intros Hallowed Hget Hnone Hback.
  rewrite (prompt_undisturbed interrupt env _ _ _ Hnone).
  destruct (lift_result (prompt env config update) w) as [-> ->].
  destruct (prompt_fallback_plain env config update w w1 c p bot' e
              Hallowed Hget Hback) as (Hfst & Htrace & Hcache).
  rewrite Hfst. repeat split; assumption.
Qed.

Lemma prompt_cancels_typing_witness :
  (exists requests,
     (requests = [] \/ exists c p, requests = [BackendRequest "hello" c p])
     /\ ((fst (Interruptible.prompt Demo.undisturbed Demo.answering
                 (mkConfig "42" "") Demo.private_hello Demo.start)
          = inl (Py.Instance (Py.KeyError "message"))
          /\ trace (snd (Interruptible.prompt Demo.undisturbed Demo.answering
                           (mkConfig "42" "") Demo.private_hello Demo.start))
             = TypingCancelled :: requests ++ [TypingStarted 42 4])
         \/ (exists body,
               fst (Interruptible.prompt Demo.undisturbed Demo.answering
                      (mkConfig "42" "") Demo.private_hello Demo.start) = inr tt
               /\ trace (snd (Interruptible.prompt Demo.undisturbed Demo.answering
                                (mkConfig "42" "") Demo.private_hello Demo.start))
                  = SendMessage 42 (Some 7) body
                    :: TypingCancelled :: requests ++ [TypingStarted 42 4])))
  /\ (fst (Interruptible.prompt Demo.cancelled Demo.answering
             (mkConfig "42" "") Demo.private_hello Demo.start)
      = inl (Py.Outside Py.CancelledError)
      /\ trace (snd (Interruptible.prompt Demo.cancelled Demo.answering
                       (mkConfig "42" "") Demo.private_hello Demo.start))
         = [BackendRequest "hello" None (uuid4 Demo.answering 0); TypingStarted 42 4]).
Proof.
  split.
  - destruct (prompt_cancels_typing Demo.undisturbed Demo.answering
                (mkConfig "42" "") Demo.private_hello Demo.start) as (Hplain & _);
      [by_computation|].
    apply Hplain. reflexivity.
  - destruct (prompt_cancels_typing Demo.cancelled Demo.answering
                (mkConfig "42" "") Demo.private_hello Demo.start) as (_ & Hcut);
      [by_computation|].
    eapply (Hcut Py.CancelledError None (uuid4 Demo.answering 0)); by_computation.
Defined.

Lemma prompt_replies_with_fallback_witness :
  fst (Interruptible.prompt Demo.undisturbed Demo.failing (mkConfig "42" "")
         Demo.private_hello Demo.start) = inr tt
  /\ trace (snd (Interruptible.prompt Demo.undisturbed Demo.failing (mkConfig "42" "")
                   Demo.private_hello Demo.start))
     = [SendMessage 42 (Some 7)
          "I'm having some trouble talking to you, please try again later.";
        TypingCancelled;
        BackendRequest "hello" None (uuid4 Demo.failing 0);
        TypingStarted 42 4].
Proof.
  destruct (prompt_replies_with_fallback Demo.undisturbed Demo.failing
              (mkConfig "42" "") Demo.private_hello Demo.start
              (snd (get_prev_conv_id Demo.failing 42 Demo.start))
              None (uuid4 Demo.failing 0) (mkChatbot None (uuid4 Demo.failing 0))
              (Py.OtherException "ConnectionError" "unreachable"))
    as (Hdone & Htrace & _); [by_computation ..|].
  split; [exact Hdone | exact Htrace].
Defined.
